(** * metrics-exporter.py: the backup metrics endpoint

    A shallow embedding of
    [private-projects/mongo-backup-v2/scripts/metrics-exporter.py]:
    the handler [MetricsHandler] with its two methods [do_GET] and
    [build_metrics], over a small model of the Python values that
    [json.loads] can return and of the exceptions the calls can raise,
    and the part of [BaseHTTPRequestHandler] that reads a request and
    calls [do_GET]. *)

From Stdlib Require Import ZArith NArith List String Ascii Bool Lia.
From Stdlib Require Import Decimal DecimalString DecimalPos DecimalZ.
Import ListNotations.

Local Open Scope Z_scope.

(** ** Python strings and bytes *)

(** A [str] is a sequence of code points (0 .. 0x10FFFF, lone surrogates
    included: [json.loads] returns them for an escape such as \ud800).
    A [bytes] value is a sequence of octets. *)
Definition pystr := list N.
Definition pybytes := list N.

(** A source literal, character by character. *)
Definition lit (s : string) : pystr :=
  map N_of_ascii (list_ascii_of_string s).

(** The double quote, written by its code point. *)
Definition dquote : pystr := [34%N].

(** The line feed of ["\n".join(...)]. *)
Definition newline : pystr := [10%N].

(** [str(n)] and the f-string conversion of an [int]. *)
Definition str_of_int (z : Z) : pystr :=
  lit (NilZero.string_of_int (Z.to_int z)).

Fixpoint str_eqb (a b : pystr) : bool :=
  match a, b with
  | [], [] => true
  | x :: a', y :: b' => N.eqb x y && str_eqb a' b'
  | _, _ => false
  end.

(** [sep.join(parts)]. *)
Fixpoint join (sep : pystr) (parts : list pystr) : pystr :=
  match parts with
  | [] => []
  | [p] => p
  | p :: rest => p ++ sep ++ join sep rest
  end.

(** ** Exceptions and results *)

(** The exception classes raised by the calls of the handler.  All of
    them derive from [Exception]. *)
Inductive exn : Set :=
| OSError
| UnicodeDecodeError
| JSONDecodeError
| RecursionError
| AttributeError
| KeyError
| TypeError
| ValueError
| OverflowError
| UnicodeEncodeError
| IndexError.

Inductive result (A : Type) : Type :=
| Ok (a : A)
| Raise (e : exn).
Arguments Ok {A} a.
Arguments Raise {A} e.

Definition is_ok {A} (r : result A) : bool :=
  match r with Ok _ => true | Raise _ => false end.

Definition rbind {A B} (r : result A) (f : A -> result B) : result B :=
  match r with
  | Ok a => f a
  | Raise e => Raise e
  end.

(** ** UTF-8 *)

Definition is_surrogate (c : N) : bool :=
  (N.leb 55296 c && N.leb c 57343)%N.

(** [chr(c).encode("utf-8")]: lone surrogates are refused. *)
Definition encode_code_point (c : N) : result pybytes :=
  if (c <? 128)%N then Ok [c]
  else if (c <? 2048)%N then
    Ok [192 + c / 64; 128 + c mod 64]%N
  else if is_surrogate c then Raise UnicodeEncodeError
  else if (c <? 65536)%N then
    Ok [224 + c / 4096; 128 + (c / 64) mod 64; 128 + c mod 64]%N
  else
    Ok [240 + c / 262144; 128 + (c / 4096) mod 64;
        128 + (c / 64) mod 64; 128 + c mod 64]%N.

(** [s.encode("utf-8")]. *)
Fixpoint encode_utf8 (s : pystr) : result pybytes :=
  match s with
  | [] => Ok []
  | c :: s' =>
      rbind (encode_code_point c) (fun b =>
      rbind (encode_utf8 s') (fun bs => Ok (b ++ bs)))
  end.

Definition is_ascii (s : pystr) : bool :=
  forallb (fun c => (c <? 128)%N) s.

Definition no_surrogate (s : pystr) : bool :=
  forallb (fun c => negb (is_surrogate c)) s.

(** The number of line feeds in a text: one less than its number of
    lines. *)
Definition line_feeds (s : pystr) : nat :=
  List.length (filter (N.eqb 10) s).

(** ** The values [json.loads] returns *)

(** The exact value of a [float]: (-1)^negative * m * 2^e, an infinity
    or a NaN. *)
Inductive float_value : Set :=
| FNan
| FInf (negative : bool)
| FFinite (negative : bool) (m : N) (e : Z).

(** [None], [bool], [int], [float], [str], [list] and [dict] with [str]
    keys.  A float, a list and a dict carry the text [repr] prints for
    them, which the embedding does not compute; a dict holds its items
    as an association list, looked up from the front. *)
#[warnings="-register-all"]
Inductive pyval : Type :=
| PNone
| PBool (b : bool)
| PInt (z : Z)
| PFloat (v : float_value) (repr : pystr)
| PStr (s : pystr)
| PList (items : list pyval) (repr : pystr)
| PDict (items : list (pystr * pyval)) (repr : pystr).

(** Truth value testing, as in [if v:] and [v or w]. *)
Definition truthy (v : pyval) : bool :=
  match v with
  | PNone => false
  | PBool b => b
  | PInt z => negb (z =? 0)
  | PFloat FNan _ => true
  | PFloat (FInf _) _ => true
  | PFloat (FFinite _ m _) _ => negb (m =? 0)%N
  | PStr s => match s with [] => false | _ => true end
  | PList items _ => match items with [] => false | _ => true end
  | PDict items _ => match items with [] => false | _ => true end
  end.

(** [a or b]. *)
Definition py_or (a b : pyval) : pyval := if truthy a then a else b.

(** [str(v)], which is what an f-string field without a format spec
    shows. *)
Definition py_str (v : pyval) : pystr :=
  match v with
  | PNone => lit "None"
  | PBool true => lit "True"
  | PBool false => lit "False"
  | PInt z => str_of_int z
  | PFloat _ r => r
  | PStr s => s
  | PList _ r => r
  | PDict _ r => r
  end.

Fixpoint lookup (key : pystr) (items : list (pystr * pyval)) : option pyval :=
  match items with
  | [] => None
  | (k, v) :: rest => if str_eqb k key then Some v else lookup key rest
  end.

(** The value [d.get(key, default)] answers with on a dict. *)
Definition field (items : list (pystr * pyval)) (key : pystr)
                 (default : pyval) : pyval :=
  match lookup key items with
  | Some v => v
  | None => default
  end.

(** The items of a dict without those of one key. *)
Definition without (key : pystr) (items : list (pystr * pyval))
  : list (pystr * pyval) :=
  filter (fun kv => negb (str_eqb (fst kv) key)) items.

(** [d.get(key, default)]; only a dict has the method. *)
Definition py_get (d : pyval) (key : pystr) (default : pyval) : result pyval :=
  match d with
  | PDict items _ =>
      match lookup key items with
      | Some v => Ok v
      | None => Ok default
      end
  | _ => Raise AttributeError
  end.

(** [d[key]] on the value [py_get] answered for. *)
Definition py_getitem (d : pyval) (key : pystr) : result pyval :=
  match d with
  | PDict items _ =>
      match lookup key items with
      | Some v => Ok v
      | None => Raise KeyError
      end
  | _ => Raise TypeError
  end.

(** [int(x)] for a float: truncation towards zero. *)
Definition int_of_float (v : float_value) : result Z :=
  match v with
  | FNan => Raise ValueError
  | FInf _ => Raise OverflowError
  | FFinite negative m e =>
      let magnitude :=
        if 0 <=? e then Z.of_N m * 2 ^ e else Z.of_N m / 2 ^ (- e) in
      Ok (if negative then - magnitude else magnitude)
  end.

(** ** The library calls that depend on the host

    [int_of_str s] is [int(s)] for a [str] (sign, digits, surrounding
    white space as the Unicode tables have them);
    [mktime_strptime s] is
    [int(time.mktime(time.strptime(s, "%Y%m%d_%H%M%S")))], which reads
    the timestamp in the local zone of the host. *)
Record runtime : Type := {
  int_of_str : pystr -> result Z;
  mktime_strptime : pystr -> result Z
}.

(** ** Local variables and the statement monad

    [build_metrics] assigns its local variables one statement at a
    time, some of them inside a [try] block.  A statement is a function
    of the local variables that either completes or raises; in both
    cases the assignments made so far remain. *)
Record locals : Type := mkLocals {
  last_success : Z;
  last_size : Z;
  total : Z;
  last_failure : pyval
}.

Definition M (A : Type) : Type := locals -> result A * locals.

Definition ret {A} (a : A) : M A := fun st => (Ok a, st).

Definition bind {A B} (m : M A) (f : A -> M B) : M B :=
  fun st =>
    match m st with
    | (Ok a, st') => f a st'
    | (Raise e, st') => (Raise e, st')
    end.

(** A call that may raise and leaves the local variables alone. *)
Definition call {A} (r : result A) : M A := fun st => (r, st).

(** [try: body except Exception: handler]; every class of [exn] derives
    from [Exception], so the handler takes them all. *)
Definition try_except (body : M unit) (handler : M unit) : M unit :=
  fun st =>
    match body st with
    | (Ok tt, st') => (Ok tt, st')
    | (Raise _, st') => handler st'
    end.

Declare Scope stmt_scope.
Delimit Scope stmt_scope with stmt.
Notation "x <- m ;; k" := (bind m (fun x => k))
  (at level 61, m at next level, right associativity) : stmt_scope.
Notation "m ;; k" := (bind m (fun _ => k))
  (at level 61, right associativity) : stmt_scope.

Definition assign_last_success (z : Z) : M unit :=
  fun st => (Ok tt, mkLocals z (last_size st) (total st) (last_failure st)).
Definition assign_last_size (z : Z) : M unit :=
  fun st => (Ok tt, mkLocals (last_success st) z (total st) (last_failure st)).
Definition assign_total (z : Z) : M unit :=
  fun st => (Ok tt, mkLocals (last_success st) (last_size st) z (last_failure st)).
Definition assign_last_failure (v : pyval) : M unit :=
  fun st => (Ok tt, mkLocals (last_success st) (last_size st) (total st) v).

(** The local variables as lines 32 to 35 leave them. *)
Definition defaults : locals := mkLocals 0 0 0 (PStr []).

(** ** The state file

    [STATE_FILE] is seen through two calls: [STATE_FILE.exists()] and,
    when it answers [True], [json.loads(STATE_FILE.read_text())], which
    returns the decoded document or raises ([OSError] and
    [UnicodeDecodeError] from reading, [JSONDecodeError] and
    [RecursionError] from decoding).

    [Path.exists] calls [stat]: it answers [True] when [stat] succeeds
    and [False] when it fails with ENOENT, ENOTDIR, EBADF or ELOOP or
    with a [ValueError]; any other [OSError] of [stat] is raised again
    (EACCES, for one, when a directory on the way cannot be searched).
    [Inaccessible] is that last case. *)
Inductive state_file : Type :=
| Missing
| Present (loaded : result pyval)
| Inaccessible.

Definition STATE_FILE_exists (f : state_file) : result bool :=
  match f with
  | Missing => Ok false
  | Present _ => Ok true
  | Inaccessible => Raise OSError
  end.

Definition json_loads_read_text (f : state_file) : result pyval :=
  match f with
  | Missing => Raise OSError
  | Present loaded => loaded
  | Inaccessible => Raise OSError
  end.

Section Handler.

Context (rt : runtime).

(** [int(v)]. *)
Definition py_int (v : pyval) : result Z :=
  match v with
  | PNone => Raise TypeError
  | PBool b => Ok (if b then 1 else 0)
  | PInt z => Ok z
  | PFloat f _ => int_of_float f
  | PStr s => int_of_str rt s
  | PList _ _ => Raise TypeError
  | PDict _ _ => Raise TypeError
  end.

(** [int(time.mktime(time.strptime(v, "%Y%m%d_%H%M%S")))]; [strptime]
    takes a [str] only. *)
Definition epoch_of (v : pyval) : result Z :=
  match v with
  | PStr s => mktime_strptime rt s
  | _ => Raise TypeError
  end.

Local Open Scope stmt_scope.

(** Lines 38 to 43, the body of the [try]. *)
Definition try_body (f : state_file) : M unit :=
  data <- call (json_loads_read_text f) ;;
  flag <- call (py_get data (lit "last_success") PNone) ;;
  (if truthy flag then
     raw <- call (py_getitem data (lit "last_success")) ;;
     t <- call (epoch_of raw) ;;
     assign_last_success t
   else ret tt) ;;
  size <- call (py_get data (lit "last_size_bytes") (PInt 0)) ;;
  n <- call (py_int size) ;;
  assign_last_size n ;;
  count <- call (py_get data (lit "total_backups") (PInt 0)) ;;
  k <- call (py_int count) ;;
  assign_total k ;;
  failure <- call (py_get data (lit "last_failure") (PStr [])) ;;
  assign_last_failure (py_or failure (PStr [])).

(** Lines 32 to 45: the defaults, then the guarded load. *)
Definition read_state (f : state_file) : M unit :=
  assign_last_success 0 ;;
  assign_last_size 0 ;;
  assign_total 0 ;;
  assign_last_failure (PStr []) ;;
  present <- call (STATE_FILE_exists f) ;;
  if present then
    try_except (try_body f)
               (assign_last_failure (PStr (lit "state_parse_error")))
  else ret tt.

(** Lines 46 to 52: the five f-strings. *)
Definition metrics_of (now : Z) (st : locals) : list pystr :=
  [ lit "mongo_backup_last_success_timestamp " ++ str_of_int (last_success st);
    lit "mongo_backup_last_run_age_seconds "
      ++ str_of_int (if negb (last_success st =? 0)
                     then now - last_success st else 0);
    lit "mongo_backup_last_archive_bytes " ++ str_of_int (last_size st);
    lit "mongo_backup_total_runs " ++ str_of_int (total st);
    lit "mongo_backup_last_failure{message=" ++ dquote
      ++ py_str (last_failure st) ++ dquote ++ lit "} "
      ++ str_of_int (if truthy (last_failure st) then 1 else 0) ].

(** [MetricsHandler.build_metrics], with [now = int(time.time())]. *)
Definition build_metrics_stmt (now : Z) (f : state_file) : M (list pystr) :=
  read_state f ;;
  fun st => (Ok (metrics_of now st), st).

(** The local variables before the first assignment; every one of them
    is assigned before it is read. *)
Definition unbound : locals := mkLocals 0 0 0 PNone.

Definition build_metrics (now : Z) (f : state_file) : result (list pystr) :=
  fst (build_metrics_stmt now f unbound).

(** The local variables when line 46 is reached. *)
Definition snapshot (f : state_file) : locals :=
  snd (read_state f unbound).

(** Whether the [try] body runs to its end on the state file. *)
Definition loads (f : state_file) : bool :=
  is_ok (fst (try_body f defaults)).

(** *** The [try] body on a dict, field by field *)

(** Lines 39 and 40 on a dict: the epoch of [last_success] when the
    field is truthy, the default otherwise. *)
Definition success_field (items : list (pystr * pyval)) : result Z :=
  let flag := field items (lit "last_success") PNone in
  if truthy flag then epoch_of flag else Ok 0.

Definition size_field (items : list (pystr * pyval)) : result Z :=
  py_int (field items (lit "last_size_bytes") (PInt 0)).

Definition total_field (items : list (pystr * pyval)) : result Z :=
  py_int (field items (lit "total_backups") (PInt 0)).

Definition failure_field (items : list (pystr * pyval)) : pyval :=
  py_or (field items (lit "last_failure") (PStr [])) (PStr []).

(** ** The HTTP handler *)

(** What a handler method does to the connection, call by call.
    [SendError code] is [send_error(code)], the error page of the
    library; the others are [send_response], [send_header],
    [end_headers] and [wfile.write]. *)
Inductive event : Type :=
| SendError (code : Z)
| SendResponse (code : Z)
| SendHeader (keyword value : pystr)
| EndHeaders
| Write (payload : pybytes).

(** [self.path not in ("/metrics", "/")]. *)
Definition path_served (path : pystr) : bool :=
  str_eqb path (lit "/metrics") || str_eqb path (lit "/").

(** [MetricsHandler.do_GET], lines 14 to 24. *)
Definition do_GET (now : Z) (f : state_file) (path : pystr)
  : result (list event) :=
  if negb (path_served path) then Ok [SendError 404]
  else
    rbind (build_metrics now f) (fun metrics =>
    rbind (encode_utf8 (join newline metrics)) (fun payload =>
    Ok [ SendResponse 200;
         SendHeader (lit "Content-Type") (lit "text/plain; version=0.0.4");
         SendHeader (lit "Content-Length")
                    (str_of_int (Z.of_nat (List.length payload)));
         EndHeaders;
         Write payload ])).

(** A request that [parse_request] has accepted: [self.command] and
    [self.path] as it leaves them. *)
Record request : Type := {
  command : pystr;
  path : pystr
}.

(** The last step of [BaseHTTPRequestHandler.dispatch], once
    [parse_request] has accepted the request and set [self.command]
    and [self.path]: the method named ["do_" + command] is called, and
    a command without such a method is answered with
    [send_error(501)].  [MetricsHandler] defines [do_GET] and no
    other. *)
Definition dispatch (now : Z) (f : state_file) (req : request)
  : result (list event) :=
  if str_eqb (command req) (lit "GET") then do_GET now f (path req)
  else Ok [SendError 501].

End Handler.

(** The status code passed to [send_response] or [send_error], when
    one of them was called. *)
Definition status_of (r : result (list event)) : option Z :=
  match r with
  | Ok (SendError code :: _) => Some code
  | Ok (SendResponse code :: _) => Some code
  | _ => None
  end.

(** The lines of the response, by their parts. *)
Definition failure_line (message : pystr) (flag : Z) : pystr :=
  lit "mongo_backup_last_failure{message=" ++ dquote
    ++ message ++ dquote ++ lit "} " ++ str_of_int flag.

(** The text of the payload before and after the failure message. *)
Definition payload_head (now : Z) (st : locals) : pystr :=
  lit "mongo_backup_last_success_timestamp " ++ str_of_int (last_success st)
    ++ newline
    ++ lit "mongo_backup_last_run_age_seconds "
    ++ str_of_int (if negb (last_success st =? 0)
                   then now - last_success st else 0)
    ++ newline
    ++ lit "mongo_backup_last_archive_bytes " ++ str_of_int (last_size st)
    ++ newline
    ++ lit "mongo_backup_total_runs " ++ str_of_int (total st)
    ++ newline
    ++ lit "mongo_backup_last_failure{message=" ++ dquote.

Definition payload_tail (st : locals) : pystr :=
  dquote ++ lit "} "
    ++ str_of_int (if truthy (last_failure st) then 1 else 0).

(** ** A reference runtime

    A host whose local zone is UTC.  The two calls are given on ASCII
    input: [int_of_str] takes white space, a sign and at most 4300
    decimal digits with single underscores between them;
    [mktime_strptime] takes the
    zero-padded form [YYYYMMDD_HHMMSS] that the backup job writes.
    Anything else is answered with [ValueError]. *)
Module Utc.

Definition digit (c : N) : option Z :=
  if (N.leb 48 c && N.leb c 57)%bool then Some (Z.of_N c - 48) else None.

Definition is_space (c : N) : bool :=
  (N.leb 9 c && N.leb c 13) || (N.leb 28 c && N.leb c 32).

Fixpoint lstrip (s : pystr) : pystr :=
  match s with
  | c :: s' => if is_space c then lstrip s' else s
  | [] => []
  end.

Definition strip (s : pystr) : pystr :=
  List.rev (lstrip (List.rev (lstrip s))).

(** Digits with single underscores between them; [after_digit] tells
    whether an underscore may come next. *)
Fixpoint digits (s : pystr) (after_digit : bool) (acc : Z) : option Z :=
  match s with
  | [] => if after_digit then Some acc else None
  | c :: s' =>
      match digit c with
      | Some d => digits s' true (10 * acc + d)
      | None =>
          if (N.eqb c 95 && after_digit)%bool then
            match s' with
            | [] => None
            | _ => digits s' false acc
            end
          else None
      end
  end.

Definition int_of_str (s : pystr) : result Z :=
  let body := strip s in
  let '(negative, rest) :=
    match body with
    | 45%N :: r => (true, r)
    | 43%N :: r => (false, r)
    | _ => (false, body)
    end in
  let count :=
    List.length (filter (fun c => match digit c with
                                  | Some _ => true
                                  | None => false
                                  end) rest) in
  if (4300 <? count)%nat then Raise ValueError
  else
    match digits rest false 0 with
    | Some z => Ok (if negative then - z else z)
    | None => Raise ValueError
    end.

Definition two (a b : N) : option Z :=
  match digit a, digit b with
  | Some x, Some y => Some (10 * x + y)
  | _, _ => None
  end.

Definition leap (y : Z) : bool :=
  ((y mod 4 =? 0) && negb (y mod 100 =? 0)) || (y mod 400 =? 0).

Definition days_in_month (y m : Z) : Z :=
  if m =? 2 then (if leap y then 29 else 28)
  else if (m =? 4) || (m =? 6) || (m =? 9) || (m =? 11) then 30
  else 31.

(** Days from 1970-01-01 to the given date of the proleptic Gregorian
    calendar. *)
Definition days_from_civil (y m d : Z) : Z :=
  let y' := if m <=? 2 then y - 1 else y in
  let era := y' / 400 in
  let yoe := y' - era * 400 in
  let mp := if 2 <? m then m - 3 else m + 9 in
  let doy := (153 * mp + 2) / 5 + d - 1 in
  let doe := yoe * 365 + yoe / 4 - yoe / 100 + doy in
  era * 146097 + doe - 719468.

Definition mktime_strptime (s : pystr) : result Z :=
  match s with
  | [y1; y2; y3; y4; m1; m2; d1; d2; 95%N; h1; h2; n1; n2; s1; s2] =>
      match two y1 y2, two y3 y4, two m1 m2, two d1 d2,
            two h1 h2, two n1 n2, two s1 s2 with
      | Some yh, Some yl, Some mo, Some dd, Some hh, Some mi, Some ss =>
          let y := 100 * yh + yl in
          if (1 <=? y) && (1 <=? mo) && (mo <=? 12)
             && (1 <=? dd) && (dd <=? days_in_month y mo)
             && (hh <=? 23) && (mi <=? 59) && (ss <=? 61)
          then Ok (days_from_civil y mo dd * 86400
                   + hh * 3600 + mi * 60 + ss)
          else Raise ValueError
      | _, _, _, _, _, _, _ => Raise ValueError
      end
  | _ => Raise ValueError
  end.

Definition host : runtime := Build_runtime int_of_str mktime_strptime.

End Utc.

(** ** Reading the request

    The part of [BaseHTTPRequestHandler] that runs before [do_GET]:
    [handle_one_request] and [parse_request] of [http/server.py].  The
    request line is read as bytes and decoded as ISO-8859-1, which
    turns each byte into the code point of the same number. *)

Definition decode_latin1 (b : pybytes) : pystr := b.

(** [c.isspace()] for a code point below 256, which is what
    [str.split()] splits on. *)
Definition py_isspace (c : N) : bool :=
  (N.leb 9 c && N.leb c 13) || (N.leb 28 c && N.leb c 32)
  || N.eqb c 133 || N.eqb c 160.

(** [s.lstrip(chars)] and [s.rstrip(chars)]. *)
Fixpoint lstrip_chars (chars : list N) (s : pystr) : pystr :=
  match s with
  | c :: s' => if existsb (N.eqb c) chars then lstrip_chars chars s' else s
  | [] => []
  end.

Definition rstrip_chars (chars : list N) (s : pystr) : pystr :=
  List.rev (lstrip_chars chars (List.rev s)).

(** [s.split()]: the maximal runs without white space.  [word] is the
    run being read, empty between words. *)
Fixpoint split_from (word : pystr) (s : pystr) : list pystr :=
  match s with
  | [] => match word with [] => [] | _ => [word] end
  | c :: s' =>
      if py_isspace c then
        match word with
        | [] => split_from [] s'
        | _ => word :: split_from [] s'
        end
      else split_from (word ++ [c]) s'
  end.

Definition py_split (s : pystr) : list pystr := split_from [] s.

(** [s.split(sep)] for a separator of one character: empty parts are
    kept. *)
Fixpoint split_on (sep : N) (part : pystr) (s : pystr) : list pystr :=
  match s with
  | [] => [part]
  | c :: s' =>
      if N.eqb c sep then part :: split_on sep [] s'
      else split_on sep (part ++ [c]) s'
  end.

(** [s.split(sep, 1)[1]]: what follows the first separator. *)
Fixpoint after_first (sep : N) (s : pystr) : result pystr :=
  match s with
  | [] => Raise IndexError
  | c :: s' => if N.eqb c sep then Ok s' else after_first sep s'
  end.

(** [s.startswith(prefix)]. *)
Fixpoint startswith (prefix s : pystr) : bool :=
  match prefix, s with
  | [], _ => true
  | p :: prefix', c :: s' => N.eqb p c && startswith prefix' s'
  | _ :: _, [] => false
  end.

(** [s.lstrip()]. *)
Fixpoint lstrip_space (s : pystr) : pystr :=
  match s with
  | c :: s' => if py_isspace c then lstrip_space s' else s
  | [] => []
  end.

(** [int(s)] for a decoded word: white space around, a sign, at most
    4300 decimal digits with single underscores between them.  Below
    256 the decimal digits are the ASCII ones. *)
Definition int_of_word (s : pystr) : result Z :=
  let body :=
    List.rev (lstrip_space (List.rev (lstrip_space s))) in
  let '(negative, rest) :=
    match body with
    | 45%N :: r => (true, r)
    | 43%N :: r => (false, r)
    | _ => (false, body)
    end in
  let count :=
    List.length (filter (fun c => match Utc.digit c with
                                  | Some _ => true
                                  | None => false
                                  end) rest) in
  if (4300 <? count)%nat then Raise ValueError
  else
    match Utc.digits rest false 0 with
    | Some z => Ok (if negative then - z else z)
    | None => Raise ValueError
    end.

(** Lines 291 to 303 of [parse_request]: the two numbers of
    [HTTP/major.minor]. *)
Definition version_number (version : pystr) : result (Z * Z) :=
  if negb (startswith (lit "HTTP/") version) then Raise ValueError
  else
    rbind (after_first 47 version) (fun base_version_number =>
    match split_on 46 [] base_version_number with
    | [major; minor] =>
        rbind (int_of_word major) (fun a =>
        rbind (int_of_word minor) (fun b => Ok (a, b)))
    | _ => Raise ValueError
    end).

(** [(a, b) >= (2, 0)] on tuples. *)
Definition at_least_2_0 (a b : Z) : bool :=
  (2 <? a) || ((a =? 2) && (0 <=? b)).

(** The header block after the request line, as
    [http.client.parse_headers] finds it. *)
Inductive header_block : Set :=
| HeadersParsed
| LineTooLong
| TooManyHeaders.

(** What [parse_request] leaves: the request it accepted, or the calls
    it made before it returned [False]; in both cases
    [self.request_version] as it stands then. *)
Inductive parse_outcome : Type :=
| Accepted (req : request) (request_version : pystr)
| Refused (request_version : pystr) (calls : list event).

(** Lines 337 to 355: the path with a leading run of slashes reduced
    to one, then the headers. *)
Definition reduce_slashes (path : pystr) : pystr :=
  if startswith (lit "//") path then lit "/" ++ lstrip_chars [47%N] path
  else path.

Definition accept (command path request_version : pystr)
                  (headers : header_block) : parse_outcome :=
  match headers with
  | HeadersParsed =>
      Accepted {| command := command; path := reduce_slashes path |}
               request_version
  | LineTooLong => Refused request_version [SendError 431]
  | TooManyHeaders => Refused request_version [SendError 431]
  end.

(** [BaseHTTPRequestHandler.parse_request], lines 267 to 371.  The
    class keeps [protocol_version = "HTTP/1.0"], so the tests on it for
    keeping the connection open and for [Expect: 100-continue] fail. *)
Definition parse_request (raw_requestline : pybytes)
                         (headers : header_block) : parse_outcome :=
  let default_request_version := lit "HTTP/0.9" in
  let requestline :=
    rstrip_chars [13; 10]%N (decode_latin1 raw_requestline) in
  let words := py_split requestline in
  match words with
  | [] => Refused default_request_version []
  | _ =>
      let checked :=
        if (3 <=? List.length words)%nat then
          let version := last words [] in
          match version_number version with
          | Raise _ => inl [SendError 400]
          | Ok (a, b) =>
              if at_least_2_0 a b then inl [SendError 505] else inr version
          end
        else inr default_request_version in
      match checked with
      | inl calls => Refused default_request_version calls
      | inr request_version =>
          match words with
          | [command; path] =>
              if negb (str_eqb command (lit "GET"))
              then Refused request_version [SendError 400]
              else accept command path request_version headers
          | [command; path; _] =>
              accept command path request_version headers
          | _ => Refused request_version [SendError 400]
          end
      end
  end.

(** What one request leaves on the connection: nothing, or the calls
    made, with [self.request_version] as it stands when they are made.
    [send_response], [send_header] and [end_headers] write the status
    line and the headers unless that version is ["HTTP/0.9"]; the body
    is written in every case. *)
Inductive outcome : Type :=
| NothingSent
| Replied (request_version : pystr) (calls : list event).

Section Server.

Context (rt : runtime).

(** [BaseHTTPRequestHandler.handle_one_request], lines 391 to 421, on
    the line that [rfile.readline(65537)] returned. *)
Definition handle_one_request (now : Z) (f : state_file)
                              (raw_requestline : pybytes)
                              (headers : header_block) : result outcome :=
  if 65536 <? Z.of_nat (List.length raw_requestline) then
    Ok (Replied [] [SendError 414])
  else
    match raw_requestline with
    | [] => Ok NothingSent
    | _ =>
        match parse_request raw_requestline headers with
        | Refused request_version calls =>
            Ok (Replied request_version calls)
        | Accepted req request_version =>
            rbind (dispatch rt now f req) (fun calls =>
            Ok (Replied request_version calls))
        end
    end.

End Server.

(** The status code on the status line, when one is written. *)
Definition status_sent (r : result outcome) : option Z :=
  match r with
  | Ok (Replied request_version calls) =>
      if str_eqb request_version (lit "HTTP/0.9") then None
      else status_of (Ok calls)
  | _ => None
  end.

(** The bytes of a request line: method, target, version, CR LF. *)
Definition request_line (method target version : pystr) : pybytes :=
  method ++ [32%N] ++ target ++ [32%N] ++ version ++ [13; 10]%N.



(** ** Sample requests and state files *)

Definition GET (p : string) : request :=
  {| command := lit "GET"; path := lit p |}.

Definition POST (p : string) : request :=
  {| command := lit "POST"; path := lit p |}.

(** The document
    [{"last_success": "20240101_120000", "last_size_bytes": 1048576,
      "total_backups": 42}]. *)
Definition january_items : list (pystr * pyval) :=
  [ (lit "last_success", PStr (lit "20240101_120000"));
    (lit "last_size_bytes", PInt 1048576);
    (lit "total_backups", PInt 42) ].

Definition january_record : state_file :=
  Present (Ok (PDict january_items
    (lit "{'last_success': '20240101_120000', 'last_size_bytes': 1048576, 'total_backups': 42}"))).

(** The document [{"last_size_bytes": 5, "total_backups": null}]. *)
Definition half_read_record : state_file :=
  Present (Ok (PDict
    [ (lit "last_size_bytes", PInt 5); (lit "total_backups", PNone) ]
    (lit "{'last_size_bytes': 5, 'total_backups': None}"))).

(** The document [{"last_failure": "\ud800"}], whose message is one
    lone surrogate. *)
Definition surrogate_record : state_file :=
  Present (Ok (PDict [ (lit "last_failure", PStr [55296%N]) ]
                     (lit "{'last_failure': '\ud800'}"))).

(** The document [{"total_backups": 7, "last_failure": null}] and the
    same without its [last_failure]. *)
Definition null_failure_items : list (pystr * pyval) :=
  [ (lit "total_backups", PInt 7); (lit "last_failure", PNone) ].

(** The January document with its keys in another order and one more
    key, [host]. *)
Definition january_items_reordered : list (pystr * pyval) :=
  [ (lit "host", PStr (lit "db1"));
    (lit "total_backups", PInt 42);
    (lit "last_size_bytes", PInt 1048576);
    (lit "last_success", PStr (lit "20240101_120000")) ].

Definition january_reordered_record : state_file :=
  Present (Ok (PDict january_items_reordered
    (lit "{'host': 'db1', 'total_backups': 42, 'last_size_bytes': 1048576, 'last_success': '20240101_120000'}"))).

(** The document [{"last_success": "19700101_000000",
    "total_backups": 3}]: a backup at the epoch itself. *)
Definition epoch_items : list (pystr * pyval) :=
  [ (lit "last_success", PStr (lit "19700101_000000"));
    (lit "total_backups", PInt 3) ].

(** The document [{"last_success": 20240101, "last_size_bytes": 9}]:
    the timestamp written as a number. *)
Definition numeric_stamp_items : list (pystr * pyval) :=
  [ (lit "last_success", PInt 20240101); (lit "last_size_bytes", PInt 9) ].

(** The document [{"last_failure": "disk\nfull"}], whose message holds
    a line feed. *)
Definition two_line_record : state_file :=
  Present (Ok (PDict
    [ (lit "last_failure", PStr (lit "disk" ++ newline ++ lit "full")) ]
    (lit "{'last_failure': 'disk\nfull'}"))).

(** The request line [GET target HTTP/1.1] and the line [GET /metrics]
    of the HTTP/0.9 form, without a version. *)
Definition GET_line (target : string) : pybytes :=
  request_line (lit "GET") (lit target) (lit "HTTP/1.1").

Definition GET_metrics_09 : pybytes := lit "GET /metrics" ++ [13; 10]%N.

(** * Properties *)

(** ** Strings *)

Lemma str_eqb_refl (a : pystr) : str_eqb a a = true.
Proof.
  induction a as [|x a IH]; simpl; [reflexivity|].
  rewrite N.eqb_refl. exact IH.
Qed.

Lemma str_eqb_eq (a b : pystr) : str_eqb a b = true <-> a = b.
Proof.
  split.
  - revert b. induction a as [|x a IH]; intros [|y b] H; simpl in H;
      try discriminate; [reflexivity|].
    apply andb_true_iff in H. destruct H as [Hx Hr].
    apply N.eqb_eq in Hx. f_equal; auto.
  - intros ->. apply str_eqb_refl.
Qed.

Lemma str_eqb_neq (a b : pystr) : str_eqb a b = false <-> a <> b.
Proof.
  split.
  - intros H E. apply str_eqb_eq in E. congruence.
  - intros H. destruct (str_eqb a b) eqn:E; [|reflexivity].
    apply str_eqb_eq in E. contradiction.
Qed.

Lemma lookup_without_same (key : pystr) (items : list (pystr * pyval)) :
  lookup key (without key items) = None.
Proof.
  induction items as [|[k v] items IH]; simpl; [reflexivity|].
  destruct (str_eqb k key) eqn:E; simpl; [exact IH|].
  rewrite E. exact IH.
Qed.

Lemma lookup_without_other (key other : pystr) (items : list (pystr * pyval)) :
  other <> key ->
  lookup other (without key items) = lookup other items.
Proof.
  intros H. induction items as [|[k v] items IH]; simpl; [reflexivity|].
  destruct (str_eqb k key) eqn:E; simpl.
  - apply str_eqb_eq in E. subst k.
    apply not_eq_sym in H. apply str_eqb_neq in H. rewrite H. exact IH.
  - destruct (str_eqb k other); [reflexivity | exact IH].
Qed.

(** ** The guarded load *)



Section Load.

Context (rt : runtime).


Lemma read_state_missing : read_state rt Missing unbound = (Ok tt, defaults).
Proof. reflexivity. Qed.

Lemma read_state_present (loaded : result pyval) :
  read_state rt (Present loaded) unbound =
  match try_body rt (Present loaded) defaults with
  | (Ok _, st) => (Ok tt, st)
  | (Raise _, st) =>
      (Ok tt, mkLocals (last_success st) (last_size st) (total st)
                       (PStr (lit "state_parse_error")))
  end.
Proof.
  unfold read_state, bind, assign_last_success, assign_last_size,
    assign_total, assign_last_failure, try_except; simpl.
  fold defaults.
  destruct (try_body rt (Present loaded) defaults) as [[[]|e] st];
    reflexivity.
Qed.

(** When [exists] raises, the load raises with it: the call is before
    the [try]. *)
Lemma read_state_inaccessible :
  read_state rt Inaccessible unbound = (Raise OSError, defaults).
Proof. reflexivity. Qed.

(** When [exists] answers, the load does not raise: the handler of the
    [try] absorbs whatever its body raises. *)
Lemma read_state_ok (f : state_file) :
  f <> Inaccessible ->
  fst (read_state rt f unbound) = Ok tt.
Proof.
  intros Hf. destruct f as [|loaded|].
  - reflexivity.
  - rewrite read_state_present.
    destruct (try_body rt (Present loaded) defaults) as [[[]|e] st];
      reflexivity.
  - contradiction.
Qed.

Lemma build_metrics_snapshot (now : Z) (f : state_file) :
  f <> Inaccessible ->
  build_metrics rt now f = Ok (metrics_of now (snapshot rt f)).
Proof.
  intros Hf. unfold build_metrics, build_metrics_stmt, snapshot, bind.
  pose proof (read_state_ok f Hf) as H.
  destruct (read_state rt f unbound) as [r st]; simpl in H; subst r.
  reflexivity.
Qed.

Lemma build_metrics_inaccessible (now : Z) :
  build_metrics rt now Inaccessible = Raise OSError.
Proof. reflexivity. Qed.

Lemma snapshot_missing : snapshot rt Missing = defaults.
Proof. reflexivity. Qed.

End Load.

(** ** The [try] body, field by field *)


Section Fields.

Context (rt : runtime).


Lemma try_body_raise (e : exn) :
  try_body rt (Present (Raise e)) defaults = (Raise e, defaults).
Proof. reflexivity. Qed.

Lemma try_body_not_dict (data : pyval) :
  (forall items r, data <> PDict items r) ->
  try_body rt (Present (Ok data)) defaults = (Raise AttributeError, defaults).
Proof.
  intros H. destruct data; try reflexivity.
  exfalso. eapply H. reflexivity.
Qed.

Lemma try_body_dict (items : list (pystr * pyval)) (r : pystr) :
  try_body rt (Present (Ok (PDict items r))) defaults =
  match success_field rt items with
  | Raise e => (Raise e, defaults)
  | Ok a =>
      match size_field rt items with
      | Raise e => (Raise e, mkLocals a 0 0 (PStr []))
      | Ok b =>
          match total_field rt items with
          | Raise e => (Raise e, mkLocals a b 0 (PStr []))
          | Ok c => (Ok tt, mkLocals a b c (failure_field items))
          end
      end
  end.
Proof.
  unfold try_body, success_field, size_field, total_field, failure_field,
    field, bind, call, ret, py_get, py_getitem; simpl.
  destruct (lookup (lit "last_success") items) as [flag|]; simpl.
  - destruct (truthy flag); simpl.
    + destruct (epoch_of rt flag) as [a|e]; simpl; [|reflexivity].
      destruct (lookup (lit "last_size_bytes") items) as [v|]; simpl;
        [destruct (py_int rt v) as [b|e]; simpl; [|reflexivity]|];
        (destruct (lookup (lit "total_backups") items) as [w|]; simpl;
         [destruct (py_int rt w) as [c|e]; simpl; [|reflexivity]|]);
        destruct (lookup (lit "last_failure") items); reflexivity.
    + destruct (lookup (lit "last_size_bytes") items) as [v|]; simpl;
        [destruct (py_int rt v) as [b|e]; simpl; [|reflexivity]|];
        (destruct (lookup (lit "total_backups") items) as [w|]; simpl;
         [destruct (py_int rt w) as [c|e]; simpl; [|reflexivity]|]);
        destruct (lookup (lit "last_failure") items); reflexivity.
  - destruct (lookup (lit "last_size_bytes") items) as [v|]; simpl;
      [destruct (py_int rt v) as [b|e]; simpl; [|reflexivity]|];
      (destruct (lookup (lit "total_backups") items) as [w|]; simpl;
       [destruct (py_int rt w) as [c|e]; simpl; [|reflexivity]|]);
      destruct (lookup (lit "last_failure") items); reflexivity.
Qed.

End Fields.

(** ** Encoding *)


Lemma encode_code_point_ok (c : N) :
  is_surrogate c = false -> exists b, encode_code_point c = Ok b.
Proof.
  intros H. unfold encode_code_point. rewrite H.
  destruct (c <? 128)%N; [eexists; reflexivity|].
  destruct (c <? 2048)%N; [eexists; reflexivity|].
  destruct (c <? 65536)%N; eexists; reflexivity.
Qed.

Lemma encode_code_point_surrogate (c : N) :
  is_surrogate c = true -> encode_code_point c = Raise UnicodeEncodeError.
Proof.
  intros H. unfold encode_code_point. rewrite H.
  unfold is_surrogate in H. apply andb_true_iff in H. destruct H as [H1 H2].
  apply N.leb_le in H1.
  destruct (c <? 128)%N eqn:E1; [apply N.ltb_lt in E1; lia|].
  destruct (c <? 2048)%N eqn:E2; [apply N.ltb_lt in E2; lia|].
  reflexivity.
Qed.


(** The encoder fails on lone surrogates and on nothing else. *)
Lemma encode_utf8_is_ok (s : pystr) :
  is_ok (encode_utf8 s) = no_surrogate s.
Proof.
  induction s as [|c s IH]; simpl; [reflexivity|].
  destruct (is_surrogate c) eqn:Hc; simpl.
  - rewrite (encode_code_point_surrogate c Hc). reflexivity.
  - destruct (encode_code_point_ok c Hc) as [b ->]. simpl.
    rewrite <- IH. destruct (encode_utf8 s); reflexivity.
Qed.

Lemma encode_utf8_ascii (s : pystr) :
  is_ascii s = true -> encode_utf8 s = Ok s.
Proof.
  induction s as [|c s IH]; simpl; [reflexivity|].
  intros H. apply andb_true_iff in H. destruct H as [Hc Hs].
  unfold encode_code_point. rewrite Hc. simpl. rewrite (IH Hs). reflexivity.
Qed.

Lemma is_ascii_app (a b : pystr) :
  is_ascii (a ++ b) = is_ascii a && is_ascii b.
Proof. apply forallb_app. Qed.

Lemma no_surrogate_app (a b : pystr) :
  no_surrogate (a ++ b) = no_surrogate a && no_surrogate b.
Proof. apply forallb_app. Qed.

Lemma is_ascii_no_surrogate (s : pystr) :
  is_ascii s = true -> no_surrogate s = true.
Proof.
  induction s as [|c s IH]; simpl; [reflexivity|].
  intros H. apply andb_true_iff in H. destruct H as [Hc Hs].
  rewrite (IH Hs), andb_true_r. apply N.ltb_lt in Hc.
  unfold is_surrogate. destruct (N.leb 55296 c) eqn:E; [|reflexivity].
  apply N.leb_le in E. lia.
Qed.

Lemma is_ascii_uint (d : uint) :
  is_ascii (lit (NilEmpty.string_of_uint d)) = true.
Proof.
  induction d; simpl; try reflexivity; exact IHd.
Qed.

(** A decimal numeral is made of ASCII characters. *)
Lemma is_ascii_str_of_int (z : Z) : is_ascii (str_of_int z) = true.
Proof.
  unfold str_of_int.
  assert (U : forall d, is_ascii (lit (NilZero.string_of_uint d)) = true).
  { intros d. destruct d; try reflexivity;
      unfold NilZero.string_of_uint; apply is_ascii_uint. }
  destruct (Z.to_int z) as [d|d]; simpl.
  - apply U.
  - apply (U d).
Qed.

(** ** The payload *)


Lemma join_metrics (now : Z) (st : locals) :
  join newline (metrics_of now st) =
  payload_head now st ++ py_str (last_failure st) ++ payload_tail st.
Proof.
  unfold metrics_of, payload_head, payload_tail. cbn [join].
  rewrite <- !app_assoc. reflexivity.
Qed.

Lemma is_ascii_payload_head (now : Z) (st : locals) :
  is_ascii (payload_head now st) = true.
Proof.
  unfold payload_head.
  rewrite !is_ascii_app, !is_ascii_str_of_int. reflexivity.
Qed.

Lemma is_ascii_payload_tail (st : locals) :
  is_ascii (payload_tail st) = true.
Proof.
  unfold payload_tail.
  rewrite !is_ascii_app, !is_ascii_str_of_int. reflexivity.
Qed.

(** Whether the payload can be encoded depends on the failure message
    alone. *)
Lemma encode_metrics_is_ok (now : Z) (st : locals) :
  is_ok (encode_utf8 (join newline (metrics_of now st))) =
  no_surrogate (py_str (last_failure st)).
Proof.
  rewrite encode_utf8_is_ok, join_metrics, !no_surrogate_app.
  rewrite (is_ascii_no_surrogate _ (is_ascii_payload_head now st)).
  rewrite (is_ascii_no_surrogate _ (is_ascii_payload_tail st)).
  rewrite andb_true_r. reflexivity.
Qed.

Lemma encode_metrics_ascii (now : Z) (st : locals) :
  is_ascii (py_str (last_failure st)) = true ->
  encode_utf8 (join newline (metrics_of now st)) =
  Ok (join newline (metrics_of now st)).
Proof.
  intros H. apply encode_utf8_ascii.
  rewrite join_metrics, !is_ascii_app, H.
  rewrite is_ascii_payload_head, is_ascii_payload_tail. reflexivity.
Qed.

(** ** Requests *)

Section Requests.

Context (rt : runtime).

Lemma path_served_iff (p : pystr) :
  path_served p = true <-> p = lit "/" \/ p = lit "/metrics".
Proof.
  unfold path_served. rewrite orb_true_iff, !str_eqb_eq. tauto.
Qed.

Lemma do_GET_not_served (now : Z) (f : state_file) (p : pystr) :
  path_served p = false -> do_GET rt now f p = Ok [SendError 404].
Proof. intros H. unfold do_GET. rewrite H. reflexivity. Qed.

Lemma do_GET_served (now : Z) (f : state_file) (p : pystr) :
  path_served p = true ->
  f <> Inaccessible ->
  do_GET rt now f p =
  rbind (encode_utf8 (join newline (metrics_of now (snapshot rt f))))
    (fun payload =>
       Ok [ SendResponse 200;
            SendHeader (lit "Content-Type") (lit "text/plain; version=0.0.4");
            SendHeader (lit "Content-Length")
                       (str_of_int (Z.of_nat (List.length payload)));
            EndHeaders;
            Write payload ]).
Proof.
  intros H Hf. unfold do_GET. rewrite H, (build_metrics_snapshot rt now f Hf).
  reflexivity.
Qed.

Lemma dispatch_GET (now : Z) (f : state_file) (req : request) :
  command req = lit "GET" ->
  dispatch rt now f req = do_GET rt now f (path req).
Proof.
  intros H. unfold dispatch. rewrite H, str_eqb_refl. reflexivity.
Qed.

Lemma dispatch_other (now : Z) (f : state_file) (req : request) :
  command req <> lit "GET" ->
  dispatch rt now f req = Ok [SendError 501].
Proof.
  intros H. unfold dispatch.
  apply str_eqb_neq in H. rewrite H. reflexivity.
Qed.

End Requests.

(** ** The local variables at line 46 *)

Section Snapshot.

Context (rt : runtime).

Lemma snapshot_present (loaded : result pyval) :
  snapshot rt (Present loaded) =
  match try_body rt (Present loaded) defaults with
  | (Ok _, st) => st
  | (Raise _, st) =>
      mkLocals (last_success st) (last_size st) (total st)
               (PStr (lit "state_parse_error"))
  end.
Proof.
  unfold snapshot. rewrite read_state_present.
  destruct (try_body rt (Present loaded) defaults) as [[[]|e] st];
    reflexivity.
Qed.

Lemma snapshot_dict (items : list (pystr * pyval)) (r : pystr) :
  snapshot rt (Present (Ok (PDict items r))) =
  match success_field rt items with
  | Raise _ => mkLocals 0 0 0 (PStr (lit "state_parse_error"))
  | Ok a =>
      match size_field rt items with
      | Raise _ => mkLocals a 0 0 (PStr (lit "state_parse_error"))
      | Ok b =>
          match total_field rt items with
          | Raise _ => mkLocals a b 0 (PStr (lit "state_parse_error"))
          | Ok c => mkLocals a b c (failure_field items)
          end
      end
  end.
Proof.
  rewrite snapshot_present, try_body_dict.
  destruct (success_field rt items); [|reflexivity].
  destruct (size_field rt items); [|reflexivity].
  destruct (total_field rt items); reflexivity.
Qed.

Lemma loads_dict (items : list (pystr * pyval)) (r : pystr) :
  loads rt (Present (Ok (PDict items r))) =
  is_ok (success_field rt items) && is_ok (size_field rt items)
    && is_ok (total_field rt items).
Proof.
  unfold loads. rewrite try_body_dict.
  destruct (success_field rt items); [|reflexivity].
  destruct (size_field rt items); [|reflexivity].
  destruct (total_field rt items); reflexivity.
Qed.

Lemma snapshot_not_loaded (loaded : result pyval) :
  (forall items r, loaded <> Ok (PDict items r)) ->
  snapshot rt (Present loaded) =
  mkLocals 0 0 0 (PStr (lit "state_parse_error")).
Proof.
  intros H. rewrite snapshot_present.
  destruct loaded as [data|e]; [|reflexivity].
  rewrite try_body_not_dict; [reflexivity|].
  intros items r E. apply (H items r). congruence.
Qed.

End Snapshot.

(** ** A falsy [last_failure] *)

Section Falsy.

Context (rt : runtime).

Lemma failure_field_falsy (items : list (pystr * pyval)) (v : pyval) :
  lookup (lit "last_failure") items = Some v ->
  truthy v = false ->
  failure_field items = PStr [].
Proof.
  intros Hl Hv. unfold failure_field, field, py_or. rewrite Hl, Hv.
  reflexivity.
Qed.

Lemma failure_field_absent (items : list (pystr * pyval)) :
  lookup (lit "last_failure") items = None ->
  failure_field items = PStr [].
Proof.
  intros Hl. unfold failure_field, field. rewrite Hl. reflexivity.
Qed.

Lemma fields_without_failure (items : list (pystr * pyval)) :
  success_field rt (without (lit "last_failure") items)
    = success_field rt items
  /\ size_field rt (without (lit "last_failure") items)
    = size_field rt items
  /\ total_field rt (without (lit "last_failure") items)
    = total_field rt items.
Proof.
  unfold success_field, size_field, total_field, field.
  rewrite !lookup_without_other by discriminate.
  repeat split; reflexivity.
Qed.

(** A record with a falsy [last_failure] is read as the record without
    the field. *)
Lemma snapshot_without_falsy (items : list (pystr * pyval)) (r r' : pystr)
                             (v : pyval) :
  lookup (lit "last_failure") items = Some v ->
  truthy v = false ->
  snapshot rt (Present (Ok (PDict (without (lit "last_failure") items) r')))
  = snapshot rt (Present (Ok (PDict items r))).
Proof.
  intros Hl Hv. rewrite !snapshot_dict.
  destruct (fields_without_failure items) as (-> & -> & ->).
  rewrite (failure_field_falsy items v Hl Hv).
  rewrite (failure_field_absent _ (lookup_without_same _ items)).
  reflexivity.
Qed.

End Falsy.

(** ** The handler on sample inputs *)

(** A record with [last_failure = "disk full"]: the message is shown
    as it is, with the value 1. *)
Example disk_full_line :
  build_metrics Utc.host 1700000000
    (Present (Ok (PDict [ (lit "last_failure", PStr (lit "disk full")) ]
                        (lit "{'last_failure': 'disk full'}")))) =
  Ok [ lit "mongo_backup_last_success_timestamp 0";
       lit "mongo_backup_last_run_age_seconds 0";
       lit "mongo_backup_last_archive_bytes 0";
       lit "mongo_backup_total_runs 0";
       failure_line (lit "disk full") 1 ].
Proof. reflexivity. Qed.

(** A document that is a list has no [get]. *)
Example list_document :
  try_body Utc.host (Present (Ok (PList [] (lit "[]")))) defaults
  = (Raise AttributeError, defaults).
Proof. reflexivity. Qed.

(** [int(-1.5)] is [-1] and [int(True)] is [1]. *)
Example int_truncates :
  py_int Utc.host (PFloat (FFinite true 3 (-1)) (lit "-1.5")) = Ok (-1)
  /\ py_int Utc.host (PBool true) = Ok 1.
Proof. split; reflexivity. Qed.

(** Two, three and four byte encodings, and a lone surrogate. *)
Example encode_samples :
  encode_utf8 [233; 8364; 128512]%N =
    Ok [195; 169; 226; 130; 172; 240; 159; 152; 128]%N
  /\ encode_utf8 [56832%N] = Raise UnicodeEncodeError.
Proof. split; reflexivity. Qed.

(** A GET request to "/" on the January record, ten seconds after the
    backup. *)
Example january_response :
  status_of (dispatch Utc.host 1704110410 january_record (GET "/"))
    = Some 200
  /\ build_metrics Utc.host 1704110410 january_record =
     Ok [ lit "mongo_backup_last_success_timestamp 1704110400";
          lit "mongo_backup_last_run_age_seconds 10";
          lit "mongo_backup_last_archive_bytes 1048576";
          lit "mongo_backup_total_runs 42";
          failure_line [] 0 ].
Proof. split; reflexivity. Qed.

(** ** The request line *)










Section RequestLine.

Context (rt : runtime).




(** An accepted request is dispatched. *)
Lemma handle_accepted (now : Z) (f : state_file) (raw : pybytes)
                      (headers : header_block) (req : request)
                      (version : pystr) :
  Z.of_nat (List.length raw) <= 65536 ->
  parse_request raw headers = Accepted req version ->
  handle_one_request rt now f raw headers =
  rbind (dispatch rt now f req) (fun calls => Ok (Replied version calls)).
Proof.
  intros Hl Hp. unfold handle_one_request.
  apply Z.ltb_ge in Hl. rewrite Hl.
  destruct raw as [|c raw]; [discriminate|].
  rewrite Hp. reflexivity.
Qed.

End RequestLine.

(** ** Lines of the payload *)

Lemma line_feeds_app (a b : pystr) :
  line_feeds (a ++ b) = (line_feeds a + line_feeds b)%nat.
Proof.
  unfold line_feeds. rewrite filter_app, length_app. reflexivity.
Qed.

Lemma line_feeds_uint (d : uint) :
  line_feeds (lit (NilEmpty.string_of_uint d)) = 0%nat.
Proof.
  induction d; simpl; try reflexivity; exact IHd.
Qed.

(** A decimal numeral holds no line feed. *)
Lemma line_feeds_str_of_int (z : Z) : line_feeds (str_of_int z) = 0%nat.
Proof.
  unfold str_of_int.
  assert (U : forall d, line_feeds (lit (NilZero.string_of_uint d)) = 0%nat).
  { intros d. destruct d; try reflexivity;
      unfold NilZero.string_of_uint; apply line_feeds_uint. }
  destruct (Z.to_int z) as [d|d]; simpl.
  - apply U.
  - apply (U d).
Qed.

(** * The claims *)

(** When [exists] answers, [build_metrics] returns five lines, each
    with its name and its value. *)
Lemma build_metrics_when_exists_answers :
  forall (rt : runtime) (now : Z) (f : state_file),
  f <> Inaccessible ->
  exists (ts age size runs flag : Z) (message : pystr),
    build_metrics rt now f =
    Ok [ lit "mongo_backup_last_success_timestamp " ++ str_of_int ts;
         lit "mongo_backup_last_run_age_seconds " ++ str_of_int age;
         lit "mongo_backup_last_archive_bytes " ++ str_of_int size;
         lit "mongo_backup_total_runs " ++ str_of_int runs;
         failure_line message flag ].
Proof.
  intros rt now f Hf. rewrite (build_metrics_snapshot rt now f Hf).
  set (st := snapshot rt f).
  exists (last_success st),
         (if negb (last_success st =? 0) then now - last_success st else 0),
         (last_size st), (total st),
         (if truthy (last_failure st) then 1 else 0),
         (py_str (last_failure st)).
  reflexivity.
Qed.

(** C3, at the failing input.  [STATE_FILE.exists()] is called before
    the [try]: when it raises, as it does for a state file under a
    directory that cannot be searched, [build_metrics] raises with it
    and the GET request gets no response.  The same [OSError] raised
    by [read_text], inside the [try], is absorbed. *)
Theorem C3_exists_raises_outside_try :
  forall (rt : runtime) (now : Z),
    build_metrics rt now Inaccessible = Raise OSError
    /\ handle_one_request rt now Inaccessible (GET_line "/metrics")
                          HeadersParsed = Raise OSError
    /\ build_metrics rt now (Present (Raise OSError)) =
       Ok [ lit "mongo_backup_last_success_timestamp 0";
            lit "mongo_backup_last_run_age_seconds 0";
            lit "mongo_backup_last_archive_bytes 0";
            lit "mongo_backup_total_runs 0";
            failure_line (lit "state_parse_error") 1 ].
Proof.
  intros rt now. split; [reflexivity|]. split; reflexivity.
Qed.

(** C4.  While the state file does not exist, a GET request to "/" or
    "/metrics" is answered 200 with the four numeric gauges at 0 and the
    failure line with an empty message and the value 0. *)
Theorem C4_missing_state_file :
  forall (rt : runtime) (now : Z) (req : request),
    command req = lit "GET" ->
    path_served (path req) = true ->
    build_metrics rt now Missing =
      Ok [ lit "mongo_backup_last_success_timestamp 0";
           lit "mongo_backup_last_run_age_seconds 0";
           lit "mongo_backup_last_archive_bytes 0";
           lit "mongo_backup_total_runs 0";
           failure_line [] 0 ]
    /\ dispatch rt now Missing req =
      Ok [ SendResponse 200;
           SendHeader (lit "Content-Type") (lit "text/plain; version=0.0.4");
           SendHeader (lit "Content-Length") (lit "173");
           EndHeaders;
           Write (join newline
             [ lit "mongo_backup_last_success_timestamp 0";
               lit "mongo_backup_last_run_age_seconds 0";
               lit "mongo_backup_last_archive_bytes 0";
               lit "mongo_backup_total_runs 0";
               failure_line [] 0 ]) ].
Proof.
  intros rt now req Hc Hp. split.
  - reflexivity.
  - rewrite (dispatch_GET rt now Missing req Hc).
    rewrite (do_GET_served rt now Missing (path req) Hp) by discriminate.
    rewrite snapshot_missing. reflexivity.
Qed.

Lemma C4_missing_state_file_witness :
  build_metrics Utc.host 1700000000 Missing =
    Ok [ lit "mongo_backup_last_success_timestamp 0";
         lit "mongo_backup_last_run_age_seconds 0";
         lit "mongo_backup_last_archive_bytes 0";
         lit "mongo_backup_total_runs 0";
         failure_line [] 0 ]
  /\ status_of (dispatch Utc.host 1700000000 Missing
                                   (GET "/metrics")) = Some 200.
Proof.
  destruct (C4_missing_state_file Utc.host 1700000000 (GET "/metrics")
              eq_refl eq_refl) as [Hm Hr].
  split; [exact Hm | rewrite Hr; reflexivity].
Defined.

(** C6.  For the metrics that are built, that is whenever [exists]
    answers: the age line shows [now - last_success] when the epoch of
    the last success is not zero and 0 when it is zero, [last_success]
    being the value the timestamp line shows. *)
Theorem C6_age_line :
  forall (rt : runtime) (now : Z) (f : state_file),
  f <> Inaccessible ->
  exists (size runs failure : pystr),
    build_metrics rt now f =
    Ok [ lit "mongo_backup_last_success_timestamp "
           ++ str_of_int (last_success (snapshot rt f));
         lit "mongo_backup_last_run_age_seconds "
           ++ str_of_int (if last_success (snapshot rt f) =? 0 then 0
                          else now - last_success (snapshot rt f));
         size; runs; failure ].
Proof.
  intros rt now f Hf. rewrite (build_metrics_snapshot rt now f Hf).
  unfold metrics_of.
  destruct (last_success (snapshot rt f) =? 0); simpl negb;
    do 3 eexists; reflexivity.
Qed.

Lemma C6_age_line_witness :
  exists (size runs failure : pystr),
    build_metrics Utc.host 1800000000 january_record =
    Ok [ lit "mongo_backup_last_success_timestamp 1704110400";
         lit "mongo_backup_last_run_age_seconds 95889600";
         size; runs; failure ].
Proof.
  apply (C6_age_line Utc.host 1800000000 january_record). discriminate.
Defined.

(** C8.  Two requests against an unchanged state file for which
    [exists] answers, served when the clock shows [now1] and [now2]:
    the timestamp, archive size, run count and failure lines are the
    same; the two ages are both 0 or differ by [now2 - now1]; and both
    requests get the same status. *)
Theorem C8_unchanged_file_same_lines :
  forall (rt : runtime) (f : state_file) (req : request) (now1 now2 : Z),
  f <> Inaccessible ->
  exists (ts size runs failure : pystr) (age1 age2 : Z),
    build_metrics rt now1 f =
      Ok [ ts; lit "mongo_backup_last_run_age_seconds " ++ str_of_int age1;
           size; runs; failure ]
    /\ build_metrics rt now2 f =
      Ok [ ts; lit "mongo_backup_last_run_age_seconds " ++ str_of_int age2;
           size; runs; failure ]
    /\ (age2 - age1 = now2 - now1 \/ (age1 = 0 /\ age2 = 0))
    /\ status_of (dispatch rt now1 f req) =
       status_of (dispatch rt now2 f req).
Proof.
  intros rt f req now1 now2 Hf.
  rewrite !(build_metrics_snapshot rt _ f Hf).
  set (st := snapshot rt f).
  exists (lit "mongo_backup_last_success_timestamp "
            ++ str_of_int (last_success st)),
         (lit "mongo_backup_last_archive_bytes " ++ str_of_int (last_size st)),
         (lit "mongo_backup_total_runs " ++ str_of_int (total st)),
         (failure_line (py_str (last_failure st))
                       (if truthy (last_failure st) then 1 else 0)),
         (if negb (last_success st =? 0) then now1 - last_success st else 0),
         (if negb (last_success st =? 0) then now2 - last_success st else 0).
  split; [reflexivity|]. split; [reflexivity|]. split.
  - destruct (last_success st =? 0); simpl; [right; split; reflexivity|].
    left. lia.
  - unfold dispatch.
    destruct (str_eqb (command req) (lit "GET")); [|reflexivity].
    destruct (path_served (path req)) eqn:Hp.
    + rewrite !(do_GET_served rt _ f (path req) Hp Hf). fold st.
      pose proof (encode_metrics_is_ok now1 st) as H1.
      pose proof (encode_metrics_is_ok now2 st) as H2.
      destruct (encode_utf8 (join newline (metrics_of now1 st)));
        destruct (encode_utf8 (join newline (metrics_of now2 st)));
        simpl in *; congruence.
    + rewrite !(do_GET_not_served rt _ f (path req) Hp). reflexivity.
Qed.

Lemma C8_unchanged_file_same_lines_witness :
  exists (ts size runs failure : pystr) (age1 age2 : Z),
    build_metrics Utc.host 1800000000 january_record =
      Ok [ ts; lit "mongo_backup_last_run_age_seconds " ++ str_of_int age1;
           size; runs; failure ]
    /\ build_metrics Utc.host 1800000060 january_record =
      Ok [ ts; lit "mongo_backup_last_run_age_seconds " ++ str_of_int age2;
           size; runs; failure ]
    /\ (age2 - age1 = 1800000060 - 1800000000 \/ (age1 = 0 /\ age2 = 0)).
Proof.
  destruct (C8_unchanged_file_same_lines Utc.host january_record
              (GET "/metrics") 1800000000 1800000060)
    as (ts & size & runs & failure & age1 & age2 & H1 & H2 & H3 & _);
    [discriminate|].
  exists ts, size, runs, failure, age1, age2. auto.
Defined.

(** C5 as stated fails, in four ways.  A failure message with a lone
    surrogate makes [encode] raise, and the request gets no response.
    A request of the HTTP/0.9 form, without a version, gets the body
    with no status line and no header.  A request with version 3.0 is
    refused with the error page 505, sent by [parse_request] before
    the version is stored.  A failure message with a line feed gives a
    body of six lines. *)
Lemma C5_served_get_without_the_response :
  handle_one_request Utc.host 1700000000 surrogate_record
                     (GET_line "/metrics") HeadersParsed
    = Raise UnicodeEncodeError
  /\ (exists calls : list event,
        handle_one_request Utc.host 1700000000 january_record
                           GET_metrics_09 HeadersParsed
          = Ok (Replied (lit "HTTP/0.9") calls)
        /\ status_sent (handle_one_request Utc.host 1700000000
                          january_record GET_metrics_09 HeadersParsed)
           = None)
  /\ handle_one_request Utc.host 1700000000 january_record
       (request_line (lit "GET") (lit "/metrics") (lit "HTTP/3.0"))
       HeadersParsed
     = Ok (Replied (lit "HTTP/0.9") [SendError 505])
  /\ (exists metrics : list pystr,
        build_metrics Utc.host 1700000000 two_line_record = Ok metrics
        /\ line_feeds (join newline metrics) = 5%nat).
Proof.
  split; [reflexivity|]. split.
  - eexists. split; reflexivity.
  - split; [reflexivity|]. eexists. split; reflexivity.
Qed.

(** C5, amended.  A GET request to "/" or "/metrics" that
    [parse_request] accepts with a version other than HTTP/0.9, when
    [exists] answers and the failure message holds no lone surrogate
    and no line feed: the metrics are five lines in the fixed order,
    their join by line feeds has exactly those five lines and encodes
    to a payload, and the response has the status 200, the content type
    of the text format, the length of the payload as Content-Length,
    and the payload as body, nothing after it. *)
Theorem C5_served_response :
  forall (rt : runtime) (now : Z) (f : state_file) (raw : pybytes)
         (headers : header_block) (req : request) (version : pystr),
    Z.of_nat (List.length raw) <= 65536 ->
    parse_request raw headers = Accepted req version ->
    version <> lit "HTTP/0.9" ->
    command req = lit "GET" ->
    path req = lit "/" \/ path req = lit "/metrics" ->
    f <> Inaccessible ->
    no_surrogate (py_str (last_failure (snapshot rt f))) = true ->
    line_feeds (py_str (last_failure (snapshot rt f))) = 0%nat ->
    exists (ts age size runs flag : Z) (message : pystr) (payload : pybytes),
      build_metrics rt now f =
        Ok [ lit "mongo_backup_last_success_timestamp " ++ str_of_int ts;
             lit "mongo_backup_last_run_age_seconds " ++ str_of_int age;
             lit "mongo_backup_last_archive_bytes " ++ str_of_int size;
             lit "mongo_backup_total_runs " ++ str_of_int runs;
             failure_line message flag ]
      /\ line_feeds (join newline
           [ lit "mongo_backup_last_success_timestamp " ++ str_of_int ts;
             lit "mongo_backup_last_run_age_seconds " ++ str_of_int age;
             lit "mongo_backup_last_archive_bytes " ++ str_of_int size;
             lit "mongo_backup_total_runs " ++ str_of_int runs;
             failure_line message flag ]) = 4%nat
      /\ encode_utf8 (join newline
           [ lit "mongo_backup_last_success_timestamp " ++ str_of_int ts;
             lit "mongo_backup_last_run_age_seconds " ++ str_of_int age;
             lit "mongo_backup_last_archive_bytes " ++ str_of_int size;
             lit "mongo_backup_total_runs " ++ str_of_int runs;
             failure_line message flag ]) = Ok payload
      /\ handle_one_request rt now f raw headers =
         Ok (Replied version
           [ SendResponse 200;
             SendHeader (lit "Content-Type") (lit "text/plain; version=0.0.4");
             SendHeader (lit "Content-Length")
                        (str_of_int (Z.of_nat (List.length payload)));
             EndHeaders;
             Write payload ])
      /\ status_sent (handle_one_request rt now f raw headers) = Some 200.
Proof.
  intros rt now f raw headers req version Hl Hp Hv Hc Hpath Hf Hs Hlf.
  apply path_served_iff in Hpath.
  rewrite (handle_accepted rt now f raw headers req version Hl Hp).
  rewrite (dispatch_GET rt now f req Hc), (do_GET_served rt now f _ Hpath Hf).
  rewrite (build_metrics_snapshot rt now f Hf).
  set (st := snapshot rt f) in *.
  pose proof (encode_metrics_is_ok now st) as He. rewrite Hs in He.
  destruct (encode_utf8 (join newline (metrics_of now st))) as [payload|e]
    eqn:E; [|discriminate].
  exists (last_success st),
         (if negb (last_success st =? 0) then now - last_success st else 0),
         (last_size st), (total st),
         (if truthy (last_failure st) then 1 else 0),
         (py_str (last_failure st)), payload.
  split; [reflexivity|]. split.
  { change (line_feeds (join newline (metrics_of now st)) = 4%nat).
    rewrite join_metrics. unfold payload_head, payload_tail.
    rewrite !line_feeds_app, !line_feeds_str_of_int, Hlf. reflexivity. }
  split; [exact E|]. split; [reflexivity|].
  simpl rbind. unfold status_sent.
  apply str_eqb_neq in Hv. rewrite Hv. reflexivity.
Qed.

Lemma C5_served_response_witness :
  exists payload : pybytes,
    handle_one_request Utc.host 1700000000 january_record (GET_line "/")
                       HeadersParsed =
      Ok (Replied (lit "HTTP/1.1")
         [ SendResponse 200;
           SendHeader (lit "Content-Type") (lit "text/plain; version=0.0.4");
           SendHeader (lit "Content-Length")
                      (str_of_int (Z.of_nat (List.length payload)));
           EndHeaders;
           Write payload ]).
Proof.
  destruct (C5_served_response Utc.host 1700000000 january_record
              (GET_line "/") HeadersParsed (GET "/") (lit "HTTP/1.1"))
    as (ts & age & size & runs & flag & message & payload & _ & _ & _ & H & _);
    [ vm_compute; discriminate | reflexivity | discriminate | reflexivity
    | left; reflexivity | discriminate | reflexivity | reflexivity | ].
  exists payload. exact H.
Defined.




(** C2 as stated fails: a POST request is answered 501, not 404. *)
Lemma C2_post_is_501 :
  handle_one_request Utc.host 1700000000 Missing
    (request_line (lit "POST") (lit "/metrics") (lit "HTTP/1.1"))
    HeadersParsed
    = Ok (Replied (lit "HTTP/1.1") [SendError 501])
  /\ status_sent (handle_one_request Utc.host 1700000000 Missing
       (request_line (lit "POST") (lit "/metrics") (lit "HTTP/1.1"))
       HeadersParsed) <> Some 404.
Proof. split; [reflexivity | discriminate]. Qed.

(** C2, amended.  A request that [parse_request] accepts and that is
    not a GET to "/" or "/metrics" is answered with an error page: 404
    when it is a GET whose path, as [parse_request] leaves it, is
    another one, 501 when its method is not GET, whatever its path.
    The code is on the status line unless the version of the request
    is HTTP/0.9. *)
Theorem C2_unserved_requests :
  forall (rt : runtime) (now : Z) (f : state_file) (raw : pybytes)
         (headers : header_block) (req : request) (version : pystr),
    Z.of_nat (List.length raw) <= 65536 ->
    parse_request raw headers = Accepted req version ->
    command req <> lit "GET"
    \/ (path req <> lit "/" /\ path req <> lit "/metrics") ->
    handle_one_request rt now f raw headers =
      Ok (Replied version
            [SendError (if str_eqb (command req) (lit "GET")
                        then 404 else 501)])
    /\ (version <> lit "HTTP/0.9" ->
        status_sent (handle_one_request rt now f raw headers) =
        Some (if str_eqb (command req) (lit "GET") then 404 else 501)).
Proof.
  intros rt now f raw headers req version Hl Hp H.
  rewrite (handle_accepted rt now f raw headers req version Hl Hp).
  assert (Hd : dispatch rt now f req =
               Ok [SendError (if str_eqb (command req) (lit "GET")
                              then 404 else 501)]).
  { destruct (str_eqb (command req) (lit "GET")) eqn:Hc.
    - apply str_eqb_eq in Hc. destruct H as [H|[H1 H2]]; [contradiction|].
      rewrite (dispatch_GET rt now f req Hc). apply do_GET_not_served.
      destruct (path_served (path req)) eqn:Hs; [|reflexivity].
      apply path_served_iff in Hs. tauto.
    - apply str_eqb_neq in Hc. apply dispatch_other. exact Hc. }
  rewrite Hd. split; [reflexivity|].
  intros Hv. simpl rbind. unfold status_sent.
  apply str_eqb_neq in Hv. rewrite Hv. reflexivity.
Qed.

Lemma C2_unserved_requests_witness :
  handle_one_request Utc.host 1700000000 Missing
    (GET_line "/nonexistent") HeadersParsed
    = Ok (Replied (lit "HTTP/1.1") [SendError 404])
  /\ handle_one_request Utc.host 1700000000 Missing
    (request_line (lit "POST") (lit "/") (lit "HTTP/1.0")) HeadersParsed
    = Ok (Replied (lit "HTTP/1.0") [SendError 501]).
Proof.
  split.
  - apply (C2_unserved_requests Utc.host 1700000000 Missing
             (GET_line "/nonexistent") HeadersParsed (GET "/nonexistent")
             (lit "HTTP/1.1"));
      [ vm_compute; discriminate | reflexivity | right; split; discriminate ].
  - apply (C2_unserved_requests Utc.host 1700000000 Missing
             (request_line (lit "POST") (lit "/") (lit "HTTP/1.0"))
             HeadersParsed (POST "/") (lit "HTTP/1.0"));
      [ vm_compute; discriminate | reflexivity | left; discriminate ].
Defined.

(** C1, at the failing input.  With the document
    [{"last_size_bytes": 5, "total_backups": null}] the load fails at
    [int(None)], after [last_size] was assigned: the failure line
    carries state_parse_error, but the archive size is shown as 5, not
    0.  A load that fails earlier (malformed JSON, a bad
    [last_success]) leaves every numeric field at 0. *)
Lemma C1_half_read_record_keeps_size :
  loads Utc.host half_read_record = false
  /\ build_metrics Utc.host 1700000000 half_read_record =
     Ok [ lit "mongo_backup_last_success_timestamp 0";
          lit "mongo_backup_last_run_age_seconds 0";
          lit "mongo_backup_last_archive_bytes 5";
          lit "mongo_backup_total_runs 0";
          failure_line (lit "state_parse_error") 1 ]
  /\ lit "mongo_backup_last_archive_bytes 5"
     <> lit "mongo_backup_last_archive_bytes 0".
Proof. split; [reflexivity | split; [reflexivity | discriminate]]. Qed.

(** C7 as stated fails: on a host whose clock shows 1000000000 (a date
    in 2001) the age of a backup made on 2024-01-01 is negative. *)
Lemma C7_age_negative_on_early_clock :
  Utc.mktime_strptime (lit "20240101_120000") = Ok 1704110400
  /\ build_metrics Utc.host 1000000000 january_record =
     Ok [ lit "mongo_backup_last_success_timestamp 1704110400";
          lit "mongo_backup_last_run_age_seconds -704110400";
          lit "mongo_backup_last_archive_bytes 1048576";
          lit "mongo_backup_total_runs 42";
          failure_line [] 0 ]
  /\ ~ (0 <= 1000000000 - 1704110400).
Proof. split; [reflexivity | split; [reflexivity | lia]]. Qed.

(** C7, amended.  For a state record with
    last_success = "20240101_120000", last_size_bytes = 1048576,
    total_backups = 42 and no last_failure, on a host that converts the
    timestamp to the epoch [e], not zero: the metrics are the timestamp
    [e], the age [now - e], the archive size 1048576, the run count 42
    and the failure line with an empty message and the value 0; a GET
    request to "/" or "/metrics" is answered 200 with these lines as
    body; and the age is not negative when the clock is not before the
    backup, [e <= now]. *)
Theorem C7_january_record :
  forall (rt : runtime) (now e : Z) (items : list (pystr * pyval))
         (r : pystr) (req : request),
    lookup (lit "last_success") items = Some (PStr (lit "20240101_120000")) ->
    lookup (lit "last_size_bytes") items = Some (PInt 1048576) ->
    lookup (lit "total_backups") items = Some (PInt 42) ->
    lookup (lit "last_failure") items = None ->
    mktime_strptime rt (lit "20240101_120000") = Ok e ->
    e <> 0 ->
    command req = lit "GET" ->
    path_served (path req) = true ->
    let metrics :=
      [ lit "mongo_backup_last_success_timestamp " ++ str_of_int e;
        lit "mongo_backup_last_run_age_seconds " ++ str_of_int (now - e);
        lit "mongo_backup_last_archive_bytes 1048576";
        lit "mongo_backup_total_runs 42";
        failure_line [] 0 ] in
    build_metrics rt now (Present (Ok (PDict items r))) = Ok metrics
    /\ dispatch rt now (Present (Ok (PDict items r))) req =
       Ok [ SendResponse 200;
            SendHeader (lit "Content-Type") (lit "text/plain; version=0.0.4");
            SendHeader (lit "Content-Length")
              (str_of_int (Z.of_nat (List.length (join newline metrics))));
            EndHeaders;
            Write (join newline metrics) ]
    /\ (e <= now -> 0 <= now - e).
Proof.
  intros rt now e items r req Hs Hb Ht Hf He Hz Hc Hp metrics.
  assert (Hsnap : snapshot rt (Present (Ok (PDict items r))) =
                  mkLocals e 1048576 42 (PStr [])).
  { rewrite snapshot_dict.
    unfold success_field, size_field, total_field, failure_field, field.
    rewrite Hs, Hb, Ht, Hf. simpl. rewrite He. reflexivity. }
  assert (Hm : metrics_of now (mkLocals e 1048576 42 (PStr [])) = metrics).
  { unfold metrics_of, metrics. simpl last_success.
    apply Z.eqb_neq in Hz. rewrite Hz. reflexivity. }
  split; [|split].
  - rewrite build_metrics_snapshot by discriminate.
    rewrite Hsnap, Hm. reflexivity.
  - rewrite (dispatch_GET rt now _ req Hc).
    rewrite (do_GET_served rt now _ _ Hp) by discriminate.
    rewrite Hsnap.
    rewrite (encode_metrics_ascii now (mkLocals e 1048576 42 (PStr [])) eq_refl).
    rewrite Hm. reflexivity.
  - lia.
Qed.

Lemma C7_january_record_witness :
  build_metrics Utc.host 1800000000 january_record =
    Ok [ lit "mongo_backup_last_success_timestamp 1704110400";
         lit "mongo_backup_last_run_age_seconds 95889600";
         lit "mongo_backup_last_archive_bytes 1048576";
         lit "mongo_backup_total_runs 42";
         failure_line [] 0 ]
  /\ 0 <= 1800000000 - 1704110400.
Proof.
  destruct (C7_january_record Utc.host 1800000000 1704110400 january_items
              (lit "{'last_success': '20240101_120000', 'last_size_bytes': 1048576, 'total_backups': 42}")
              (GET "/metrics")
              eq_refl eq_refl eq_refl eq_refl eq_refl)
    as (Hm & _ & Hage); [discriminate | reflexivity | reflexivity |].
  split; [exact Hm | apply Hage; lia].
Defined.

(** C9.  In a state record that loads, a [last_failure] that is present
    with the value null, false, 0 or the empty string is read as the
    empty message: the failure line has an empty message and the value
    0, and the metrics are those of the record without the field. *)
Theorem C9_falsy_failure_is_empty :
  forall (rt : runtime) (now : Z) (items : list (pystr * pyval))
         (r r' : pystr) (v : pyval),
    In v [PNone; PBool false; PInt 0; PStr []] ->
    lookup (lit "last_failure") items = Some v ->
    loads rt (Present (Ok (PDict items r))) = true ->
    last_failure (snapshot rt (Present (Ok (PDict items r)))) = PStr []
    /\ (exists ts age size runs : pystr,
          build_metrics rt now (Present (Ok (PDict items r))) =
          Ok [ts; age; size; runs; failure_line [] 0])
    /\ build_metrics rt now (Present (Ok (PDict items r))) =
       build_metrics rt now
         (Present (Ok (PDict (without (lit "last_failure") items) r'))).
Proof.
  intros rt now items r r' v Hin Hl Hload.
  assert (Hv : truthy v = false).
  { simpl in Hin. destruct Hin as [<-|[<-|[<-|[<-|[]]]]]; reflexivity. }
  assert (Hlast : last_failure (snapshot rt (Present (Ok (PDict items r))))
                  = PStr []).
  { rewrite snapshot_dict. rewrite loads_dict in Hload.
    destruct (success_field rt items); [|discriminate].
    destruct (size_field rt items); [|discriminate].
    destruct (total_field rt items); [|discriminate].
    simpl. apply (failure_field_falsy items v Hl Hv). }
  split; [exact Hlast|]. split.
  - rewrite build_metrics_snapshot by discriminate.
    unfold metrics_of. rewrite Hlast.
    do 4 eexists. reflexivity.
  - rewrite !build_metrics_snapshot by discriminate.
    rewrite (snapshot_without_falsy rt items r r' v Hl Hv). reflexivity.
Qed.

Lemma C9_falsy_failure_is_empty_witness :
  (exists ts age size runs : pystr,
     build_metrics Utc.host 1700000000
       (Present (Ok (PDict null_failure_items
          (lit "{'total_backups': 7, 'last_failure': None}")))) =
     Ok [ts; age; size; runs; failure_line [] 0])
  /\ build_metrics Utc.host 1700000000
       (Present (Ok (PDict null_failure_items
          (lit "{'total_backups': 7, 'last_failure': None}")))) =
     build_metrics Utc.host 1700000000
       (Present (Ok (PDict [ (lit "total_backups", PInt 7) ]
          (lit "{'total_backups': 7}")))).
Proof.
  destruct (C9_falsy_failure_is_empty Utc.host 1700000000 null_failure_items
              (lit "{'total_backups': 7, 'last_failure': None}")
              (lit "{'total_backups': 7}") PNone
              (or_introl eq_refl) eq_refl eq_refl) as (_ & H1 & H2).
  split; [exact H1 | exact H2].
Defined.

(** * Further properties of the handler *)

(** ** The failure message after the load *)

Section Message.

Context (rt : runtime).

Lemma failure_field_cases (items : list (pystr * pyval)) :
  failure_field items = PStr [] \/ truthy (failure_field items) = true.
Proof.
  unfold failure_field, py_or.
  destruct (truthy (field items (lit "last_failure") (PStr []))) eqn:E;
    [right; exact E | left; reflexivity].
Qed.

Lemma snapshot_failed_message (loaded : result pyval) :
  loads rt (Present loaded) = false ->
  last_failure (snapshot rt (Present loaded))
  = PStr (lit "state_parse_error").
Proof.
  unfold loads. rewrite snapshot_present.
  destruct (try_body rt (Present loaded) defaults) as [[[]|e] st];
    simpl; [discriminate | reflexivity].
Qed.

Lemma snapshot_loaded_message (items : list (pystr * pyval)) (r : pystr) :
  loads rt (Present (Ok (PDict items r))) = true ->
  last_failure (snapshot rt (Present (Ok (PDict items r))))
  = failure_field items.
Proof.
  rewrite loads_dict, snapshot_dict.
  destruct (success_field rt items); [|discriminate].
  destruct (size_field rt items); [|discriminate].
  destruct (total_field rt items); [reflexivity | discriminate].
Qed.

Lemma loads_only_dict (loaded : result pyval) :
  loads rt (Present loaded) = true ->
  exists items r, loaded = Ok (PDict items r).
Proof.
  destruct loaded as [data|e]; [|discriminate].
  destruct data; try discriminate. intros _. eauto.
Qed.

(** After the load the message is the empty string or a truthy
    value. *)
Lemma snapshot_message_cases (f : state_file) :
  last_failure (snapshot rt f) = PStr []
  \/ truthy (last_failure (snapshot rt f)) = true.
Proof.
  destruct f as [|loaded|]; [left; reflexivity| |left; reflexivity].
  destruct (loads rt (Present loaded)) eqn:Hl.
  - destruct (loads_only_dict loaded Hl) as (items & r & ->).
    rewrite (snapshot_loaded_message items r Hl).
    apply failure_field_cases.
  - right. rewrite (snapshot_failed_message loaded Hl). reflexivity.
Qed.

End Message.

(** X1.  In a record that loads, a [last_failure] that is a string with
    at least one character is shown as it is between the quotes,
    nothing escaped, with the value 1. *)
Theorem X1_failure_message_verbatim :
  forall (rt : runtime) (now : Z) (items : list (pystr * pyval))
         (r s : pystr),
    lookup (lit "last_failure") items = Some (PStr s) ->
    s <> [] ->
    loads rt (Present (Ok (PDict items r))) = true ->
    exists ts age size runs : pystr,
      build_metrics rt now (Present (Ok (PDict items r))) =
      Ok [ ts; age; size; runs;
           lit "mongo_backup_last_failure{message=" ++ dquote ++ s
             ++ dquote ++ lit "} 1" ].
Proof.
  intros rt now items r s Hl Hs Hload.
  rewrite build_metrics_snapshot by discriminate. unfold metrics_of.
  rewrite (snapshot_loaded_message rt items r Hload).
  unfold failure_field, field, py_or. rewrite Hl.
  destruct s as [|c s]; [contradiction|]. simpl truthy. cbn iota.
  do 4 eexists. reflexivity.
Qed.

Lemma X1_failure_message_verbatim_witness :
  exists ts age size runs : pystr,
    build_metrics Utc.host 1700000000
      (Present (Ok (PDict
         [ (lit "last_failure", PStr (lit "disk " ++ dquote ++ lit "full")) ]
         (lit "{'last_failure': 'disk " ++ dquote ++ lit "full'}")))) =
    Ok [ ts; age; size; runs;
         lit "mongo_backup_last_failure{message=" ++ dquote
           ++ (lit "disk " ++ dquote ++ lit "full")
           ++ dquote ++ lit "} 1" ].
Proof.
  apply (X1_failure_message_verbatim Utc.host 1700000000
           [ (lit "last_failure", PStr (lit "disk " ++ dquote ++ lit "full")) ]
           (lit "{'last_failure': 'disk " ++ dquote ++ lit "full'}")
           (lit "disk " ++ dquote ++ lit "full"));
    [reflexivity | discriminate | reflexivity].
Defined.

(** X2.  Whenever [exists] answers, the failure line is one of two:
    the empty message with the value 0, which happens exactly when the
    message variable is the empty string, or the text of a truthy
    message with the value 1. *)
Theorem X2_failure_gauge_follows_message :
  forall (rt : runtime) (now : Z) (f : state_file),
  f <> Inaccessible ->
  exists ts age size runs : pystr,
    (last_failure (snapshot rt f) = PStr []
     /\ build_metrics rt now f =
        Ok [ts; age; size; runs; failure_line [] 0])
    \/ (truthy (last_failure (snapshot rt f)) = true
        /\ build_metrics rt now f =
           Ok [ ts; age; size; runs;
                failure_line (py_str (last_failure (snapshot rt f))) 1 ]).
Proof.
  intros rt now f Hf. rewrite (build_metrics_snapshot rt now f Hf).
  unfold metrics_of.
  destruct (snapshot_message_cases rt f) as [H|H]; rewrite H.
  - do 4 eexists. left. split; reflexivity.
  - do 4 eexists. right. split; reflexivity.
Qed.

Lemma X2_failure_gauge_follows_message_witness :
  exists ts age size runs : pystr,
    (last_failure (snapshot Utc.host half_read_record) = PStr []
     /\ build_metrics Utc.host 1700000000 half_read_record =
        Ok [ts; age; size; runs; failure_line [] 0])
    \/ (truthy (last_failure (snapshot Utc.host half_read_record)) = true
        /\ build_metrics Utc.host 1700000000 half_read_record =
           Ok [ ts; age; size; runs;
                failure_line
                  (py_str (last_failure (snapshot Utc.host half_read_record)))
                  1 ]).
Proof.
  apply (X2_failure_gauge_follows_message Utc.host 1700000000
           half_read_record).
  discriminate.
Defined.

(** X3.  Whenever [exists] answers, the text of the payload has four
    line feeds between the five metrics and those of the failure
    message, which is not escaped: a message with k line feeds gives a
    body of 5 + k lines. *)
Theorem X3_payload_line_count :
  forall (rt : runtime) (now : Z) (f : state_file),
  f <> Inaccessible ->
  exists metrics : list pystr,
    build_metrics rt now f = Ok metrics
    /\ line_feeds (join newline metrics) =
       (4 + line_feeds (py_str (last_failure (snapshot rt f))))%nat.
Proof.
  intros rt now f Hf. exists (metrics_of now (snapshot rt f)).
  split; [apply build_metrics_snapshot; exact Hf|].
  rewrite join_metrics. unfold payload_head, payload_tail.
  rewrite !line_feeds_app, !line_feeds_str_of_int.
  simpl. lia.
Qed.

Lemma X3_payload_line_count_witness :
  exists metrics : list pystr,
    build_metrics Utc.host 1700000000 two_line_record = Ok metrics
    /\ line_feeds (join newline metrics) = 5%nat.
Proof.
  apply (X3_payload_line_count Utc.host 1700000000 two_line_record).
  discriminate.
Defined.

(** ** What a request can be answered with *)

Section Outcomes.

Context (rt : runtime).

Lemma served_status (now : Z) (f : state_file) (p : pystr) :
  path_served p = true ->
  f <> Inaccessible ->
  no_surrogate (py_str (last_failure (snapshot rt f))) = true ->
  status_of (do_GET rt now f p) = Some 200.
Proof.
  intros Hp Hf Hs. rewrite (do_GET_served rt now f p Hp Hf).
  pose proof (encode_metrics_is_ok now (snapshot rt f)) as He.
  rewrite Hs in He.
  destruct (encode_utf8 (join newline (metrics_of now (snapshot rt f))));
    [reflexivity | discriminate].
Qed.




End Outcomes.


(** X4.  A state file that [exists] reports missing, or one that
    exists and fails to load (it cannot be read, it is not JSON, a
    field cannot be converted), never shows as an HTTP error: a GET
    request to "/" or "/metrics" that [parse_request] accepts with a
    version other than HTTP/0.9 is answered with the status 200 all the
    same. *)
Theorem X4_state_errors_are_answered_200 :
  forall (rt : runtime) (now : Z) (f : state_file) (raw : pybytes)
         (headers : header_block) (req : request) (version : pystr),
    Z.of_nat (List.length raw) <= 65536 ->
    parse_request raw headers = Accepted req version ->
    version <> lit "HTTP/0.9" ->
    command req = lit "GET" ->
    path_served (path req) = true ->
    f = Missing
    \/ (exists loaded, f = Present loaded /\ loads rt f = false) ->
    status_sent (handle_one_request rt now f raw headers) = Some 200.
Proof.
  intros rt now f raw headers req version Hl Hp Hv Hc Hs Hf.
  rewrite (handle_accepted rt now f raw headers req version Hl Hp).
  rewrite (dispatch_GET rt now f req Hc).
  assert (H : status_of (do_GET rt now f (path req)) = Some 200).
  { destruct Hf as [->|(loaded & -> & Hload)].
    - apply served_status; [exact Hs | discriminate | reflexivity].
    - apply served_status; [exact Hs | discriminate |].
      rewrite (snapshot_failed_message rt loaded Hload). reflexivity. }
  destruct (do_GET rt now f (path req)) as [calls|e]; [|discriminate].
  simpl rbind. unfold status_sent.
  apply str_eqb_neq in Hv. rewrite Hv. exact H.
Qed.

Lemma X4_state_errors_are_answered_200_witness :
  status_sent (handle_one_request Utc.host 1700000000
                 (Present (Raise JSONDecodeError)) (GET_line "/metrics")
                 HeadersParsed) = Some 200
  /\ status_sent (handle_one_request Utc.host 1700000000
                 half_read_record (GET_line "/") HeadersParsed) = Some 200.
Proof.
  split.
  - apply (X4_state_errors_are_answered_200 Utc.host 1700000000
             (Present (Raise JSONDecodeError)) (GET_line "/metrics")
             HeadersParsed (GET "/metrics") (lit "HTTP/1.1"));
      [ vm_compute; discriminate | reflexivity | discriminate | reflexivity
      | reflexivity | right; eexists; split; reflexivity ].
  - apply (X4_state_errors_are_answered_200 Utc.host 1700000000
             half_read_record (GET_line "/")
             HeadersParsed (GET "/") (lit "HTTP/1.1"));
      [ vm_compute; discriminate | reflexivity | discriminate | reflexivity
      | reflexivity | right; eexists; split; reflexivity ].
Defined.


(** ** What the metrics depend on *)

Section Dependence.

Context (rt : runtime).

(** The local variables depend on the four fields of the document and
    on nothing else in it. *)
Lemma snapshot_same_fields (items items' : list (pystr * pyval))
                           (r r' : pystr) :
  lookup (lit "last_success") items = lookup (lit "last_success") items' ->
  lookup (lit "last_size_bytes") items
    = lookup (lit "last_size_bytes") items' ->
  lookup (lit "total_backups") items = lookup (lit "total_backups") items' ->
  lookup (lit "last_failure") items = lookup (lit "last_failure") items' ->
  snapshot rt (Present (Ok (PDict items r)))
  = snapshot rt (Present (Ok (PDict items' r'))).
Proof.
  intros H1 H2 H3 H4. rewrite !snapshot_dict.
  unfold success_field, size_field, total_field, failure_field, field.
  rewrite H1, H2, H3, H4. reflexivity.
Qed.

Lemma build_metrics_same_snapshot (now : Z) (f f' : state_file) :
  f <> Inaccessible -> f' <> Inaccessible ->
  snapshot rt f = snapshot rt f' ->
  build_metrics rt now f = build_metrics rt now f'.
Proof.
  intros Hf Hf' H.
  rewrite (build_metrics_snapshot rt now f Hf).
  rewrite (build_metrics_snapshot rt now f' Hf'), H. reflexivity.
Qed.

Lemma dispatch_same_snapshot (now : Z) (f f' : state_file) (req : request) :
  f <> Inaccessible -> f' <> Inaccessible ->
  snapshot rt f = snapshot rt f' ->
  dispatch rt now f req = dispatch rt now f' req.
Proof.
  intros Hf Hf' H. unfold dispatch, do_GET.
  rewrite (build_metrics_same_snapshot now f f' Hf Hf' H). reflexivity.
Qed.

End Dependence.

(** X6.  Two documents that agree on [last_success],
    [last_size_bytes], [total_backups] and [last_failure] give the same
    metrics and the same answer to every request: other keys and the
    order of the keys are not looked at. *)
Theorem X6_other_keys_ignored :
  forall (rt : runtime) (now : Z) (items items' : list (pystr * pyval))
         (r r' : pystr) (req : request),
    lookup (lit "last_success") items = lookup (lit "last_success") items' ->
    lookup (lit "last_size_bytes") items
      = lookup (lit "last_size_bytes") items' ->
    lookup (lit "total_backups") items
      = lookup (lit "total_backups") items' ->
    lookup (lit "last_failure") items = lookup (lit "last_failure") items' ->
    build_metrics rt now (Present (Ok (PDict items r)))
      = build_metrics rt now (Present (Ok (PDict items' r')))
    /\ dispatch rt now (Present (Ok (PDict items r))) req
      = dispatch rt now (Present (Ok (PDict items' r'))) req.
Proof.
  intros rt now items items' r r' req H1 H2 H3 H4.
  pose proof (snapshot_same_fields rt items items' r r' H1 H2 H3 H4) as H.
  split.
  - apply build_metrics_same_snapshot; [discriminate | discriminate | exact H].
  - apply dispatch_same_snapshot; [discriminate | discriminate | exact H].
Qed.

Lemma X6_other_keys_ignored_witness :
  build_metrics Utc.host 1800000000
    (Present (Ok (PDict january_items (lit "{'last_success': '20240101_120000', 'last_size_bytes': 1048576, 'total_backups': 42}"))))
  = build_metrics Utc.host 1800000000
    (Present (Ok (PDict january_items_reordered (lit "{'host': 'db1', 'total_backups': 42, 'last_size_bytes': 1048576, 'last_success': '20240101_120000'}")))).
Proof.
  apply (X6_other_keys_ignored Utc.host 1800000000 january_items
           january_items_reordered (lit "{'last_success': '20240101_120000', 'last_size_bytes': 1048576, 'total_backups': 42}") (lit "{'host': 'db1', 'total_backups': 42, 'last_size_bytes': 1048576, 'last_success': '20240101_120000'}")
           (GET "/metrics") eq_refl eq_refl eq_refl eq_refl).
Defined.

(** X7.  A document that is an object with none of the four keys, the
    empty object among them, cannot be told from a missing state file:
    the metrics and the answer to every request are the same. *)
Theorem X7_empty_object_as_missing :
  forall (rt : runtime) (now : Z) (items : list (pystr * pyval))
         (r : pystr) (req : request),
    lookup (lit "last_success") items = None ->
    lookup (lit "last_size_bytes") items = None ->
    lookup (lit "total_backups") items = None ->
    lookup (lit "last_failure") items = None ->
    build_metrics rt now (Present (Ok (PDict items r)))
      = build_metrics rt now Missing
    /\ dispatch rt now (Present (Ok (PDict items r))) req
      = dispatch rt now Missing req.
Proof.
  intros rt now items r req H1 H2 H3 H4.
  assert (H : snapshot rt (Present (Ok (PDict items r)))
              = snapshot rt Missing).
  { rewrite snapshot_dict, snapshot_missing.
    unfold success_field, size_field, total_field, failure_field, field.
    rewrite H1, H2, H3, H4. reflexivity. }
  split.
  - apply build_metrics_same_snapshot; [discriminate | discriminate | exact H].
  - apply dispatch_same_snapshot; [discriminate | discriminate | exact H].
Qed.

Lemma X7_empty_object_as_missing_witness :
  build_metrics Utc.host 1700000000 (Present (Ok (PDict [] (lit "{}"))))
    = build_metrics Utc.host 1700000000 Missing
  /\ dispatch Utc.host 1700000000
       (Present (Ok (PDict [] (lit "{}")))) (GET "/")
    = dispatch Utc.host 1700000000 Missing (GET "/").
Proof.
  apply (X7_empty_object_as_missing Utc.host 1700000000 [] (lit "{}")
           (GET "/") eq_refl eq_refl eq_refl eq_refl).
Defined.

(** X8.  A [last_success] that the host converts to the epoch 0 is read
    as no success at all: the metrics are those of the document without
    the field, with the age 0 and not [now]. *)
Theorem X8_epoch_zero_is_no_success :
  forall (rt : runtime) (now : Z) (items : list (pystr * pyval))
         (r r' s : pystr),
    lookup (lit "last_success") items = Some (PStr s) ->
    mktime_strptime rt s = Ok 0 ->
    build_metrics rt now (Present (Ok (PDict items r)))
    = build_metrics rt now
        (Present (Ok (PDict (without (lit "last_success") items) r'))).
Proof.
  intros rt now items r r' s Hl He.
  apply build_metrics_same_snapshot; [discriminate | discriminate |].
  rewrite !snapshot_dict.
  assert (Hs : success_field rt items = Ok 0).
  { unfold success_field, field. rewrite Hl.
    destruct (truthy (PStr s)); [exact He | reflexivity]. }
  assert (Hs' : success_field rt (without (lit "last_success") items) = Ok 0).
  { unfold success_field, field. rewrite lookup_without_same. reflexivity. }
  rewrite Hs, Hs'.
  unfold size_field, total_field, failure_field, field.
  rewrite !lookup_without_other by discriminate. reflexivity.
Qed.

Lemma X8_epoch_zero_is_no_success_witness :
  build_metrics Utc.host 1700000000
    (Present (Ok (PDict epoch_items (lit "{'last_success': '19700101_000000', 'total_backups': 3}"))))
  = build_metrics Utc.host 1700000000
    (Present (Ok (PDict [ (lit "total_backups", PInt 3) ]
                        (lit "{'total_backups': 3}")))).
Proof.
  apply (X8_epoch_zero_is_no_success Utc.host 1700000000 epoch_items
           (lit "{'last_success': '19700101_000000', 'total_backups': 3}") (lit "{'total_backups': 3}")
           (lit "19700101_000000") eq_refl eq_refl).
Defined.

(** X9.  A [last_success] that is truthy and not a string (a number,
    true, a list, an object) makes the load fail at once: every numeric
    field is 0, whatever the other fields hold, and the message is
    state_parse_error. *)
Theorem X9_timestamp_must_be_string :
  forall (rt : runtime) (now : Z) (items : list (pystr * pyval))
         (r : pystr) (v : pyval),
    lookup (lit "last_success") items = Some v ->
    truthy v = true ->
    (forall s, v <> PStr s) ->
    build_metrics rt now (Present (Ok (PDict items r))) =
    Ok [ lit "mongo_backup_last_success_timestamp 0";
         lit "mongo_backup_last_run_age_seconds 0";
         lit "mongo_backup_last_archive_bytes 0";
         lit "mongo_backup_total_runs 0";
         failure_line (lit "state_parse_error") 1 ].
Proof.
  intros rt now items r v Hl Ht Hv.
  rewrite build_metrics_snapshot by discriminate. rewrite snapshot_dict.
  assert (Hs : success_field rt items = Raise TypeError).
  { unfold success_field, field. rewrite Hl, Ht.
    destruct v; try reflexivity. exfalso. eapply Hv. reflexivity. }
  rewrite Hs. reflexivity.
Qed.

Lemma X9_timestamp_must_be_string_witness :
  build_metrics Utc.host 1700000000
    (Present (Ok (PDict numeric_stamp_items (lit "{'last_success': 20240101, 'last_size_bytes': 9}")))) =
  Ok [ lit "mongo_backup_last_success_timestamp 0";
       lit "mongo_backup_last_run_age_seconds 0";
       lit "mongo_backup_last_archive_bytes 0";
       lit "mongo_backup_total_runs 0";
       failure_line (lit "state_parse_error") 1 ].
Proof.
  apply (X9_timestamp_must_be_string Utc.host 1700000000
           numeric_stamp_items (lit "{'last_success': 20240101, 'last_size_bytes': 9}") (PInt 20240101) eq_refl eq_refl).
  discriminate.
Defined.

(** ** Reading the gauges back *)

Lemma lit_inj (a b : string) : lit a = lit b -> a = b.
Proof.
  unfold lit. intros H.
  rewrite <- (string_of_list_ascii_of_string a).
  rewrite <- (string_of_list_ascii_of_string b).
  f_equal. revert H.
  generalize (list_ascii_of_string a) (list_ascii_of_string b).
  intros l. induction l as [|x l IH]; intros [|y l'] H; simpl in H;
    try discriminate; [reflexivity|].
  injection H as Hx Hl. f_equal; [|apply IH; exact Hl].
  rewrite <- (ascii_N_embedding x), <- (ascii_N_embedding y), Hx.
  reflexivity.
Qed.

(** Two integers with the same numeral are the same. *)
Lemma str_of_int_inj (a b : Z) : str_of_int a = str_of_int b -> a = b.
Proof.
  unfold str_of_int. intros H. apply lit_inj in H.
  assert (N : forall z, Z.to_int z <> Pos Nil /\ Z.to_int z <> Neg Nil).
  { intros [|p|p]; simpl; split; try discriminate;
      intros E; injection E as E;
      exact (DecimalPos.Unsigned.to_uint_nonnil p E). }
  apply DecimalZ.to_int_inj.
  assert (E : Some (Z.to_int a) = Some (Z.to_int b)).
  { rewrite <- (NilZero.isi (Z.to_int a)) by apply N.
    rewrite <- (NilZero.isi (Z.to_int b)) by apply N.
    rewrite H. reflexivity. }
  injection E as E. exact E.
Qed.

(** X10.  The three stored gauges can be read back from the metrics:
    two state files whose metrics are the same, at whatever clock
    values, have the same timestamp, archive size and run count. *)
Theorem X10_gauges_determined_by_metrics :
  forall (rt : runtime) (now now' : Z) (f f' : state_file),
    build_metrics rt now f = build_metrics rt now' f' ->
    last_success (snapshot rt f) = last_success (snapshot rt f')
    /\ last_size (snapshot rt f) = last_size (snapshot rt f')
    /\ total (snapshot rt f) = total (snapshot rt f').
Proof.
  intros rt now now' f f' H.
  assert (Hi : forall g : state_file, g = Inaccessible \/ g <> Inaccessible).
  { intros [|loaded|]; [right; discriminate | right; discriminate | left].
    reflexivity. }
  destruct (Hi f) as [->|Hf], (Hi f') as [->|Hf'].
  - repeat split; reflexivity.
  - rewrite build_metrics_inaccessible in H.
    rewrite (build_metrics_snapshot rt now' f' Hf') in H. discriminate.
  - rewrite build_metrics_inaccessible in H.
    rewrite (build_metrics_snapshot rt now f Hf) in H. discriminate.
  - rewrite (build_metrics_snapshot rt now f Hf) in H.
    rewrite (build_metrics_snapshot rt now' f' Hf') in H.
    unfold metrics_of in H.
    injection H as H1 _ H3 H4 _.
    repeat split; apply str_of_int_inj; assumption.
Qed.

Lemma X10_gauges_determined_by_metrics_witness :
  last_success (snapshot Utc.host january_record)
    = last_success (snapshot Utc.host january_reordered_record)
  /\ last_size (snapshot Utc.host january_record)
    = last_size (snapshot Utc.host january_reordered_record)
  /\ total (snapshot Utc.host january_record)
    = total (snapshot Utc.host january_reordered_record).
Proof.
  apply (X10_gauges_determined_by_metrics Utc.host 1800000000 1800000000
           january_record
           january_reordered_record).
  reflexivity.
Defined.

(** ** Bytes and characters *)

Lemma encode_code_point_length (c : N) (b : pybytes) :
  encode_code_point c = Ok b ->
  (1 <= List.length b <= 4)%nat
  /\ (List.length b = 1%nat <-> (c <? 128)%N = true).
Proof.
  unfold encode_code_point.
  destruct (c <? 128)%N.
  { intros H. injection H as <-. simpl. split; [lia | tauto]. }
  destruct (c <? 2048)%N.
  { intros H. injection H as <-. simpl. split; [lia|].
    split; intros; discriminate. }
  destruct (is_surrogate c); [discriminate|].
  destruct (c <? 65536)%N; intros H; injection H as <-; simpl;
    (split; [lia | split; intros; discriminate]).
Qed.

(** An encoded text has at least as many bytes as the text has
    characters and at most four times as many, and as many exactly when
    the text is ASCII. *)
Lemma encode_utf8_length (s : pystr) :
  forall b : pybytes,
    encode_utf8 s = Ok b ->
    (List.length s <= List.length b <= 4 * List.length s)%nat
    /\ (List.length b = List.length s <-> is_ascii s = true).
Proof.
  induction s as [|c s IH]; simpl; intros b H.
  - injection H as <-. simpl. split; [lia | tauto].
  - destruct (encode_code_point c) as [bc|e] eqn:Ec; [|discriminate].
    simpl in H.
    destruct (encode_utf8 s) as [bs|e] eqn:Es; [|discriminate].
    simpl in H. injection H as <-.
    destruct (encode_code_point_length c bc Ec) as [Hc Hc1].
    destruct (IH bs eq_refl) as [Hs Hs1].
    rewrite length_app. split; [lia|].
    rewrite andb_true_iff, <- Hc1, <- Hs1. lia.
Qed.

Lemma is_ascii_join_metrics (now : Z) (st : locals) :
  is_ascii (join newline (metrics_of now st))
  = is_ascii (py_str (last_failure st)).
Proof.
  rewrite join_metrics, !is_ascii_app.
  rewrite is_ascii_payload_head, is_ascii_payload_tail, andb_true_r.
  reflexivity.
Qed.

(** X11.  Content-Length counts the bytes of the body, not the
    characters of the text: for a GET request to "/" or "/metrics" that
    is answered ([exists] answers and the message can be encoded), the
    length sent is between the number of characters of the joined
    metrics and four times that number, and equals it exactly when the
    failure message is ASCII. *)
Theorem X11_content_length_counts_bytes :
  forall (rt : runtime) (now : Z) (f : state_file) (req : request),
    command req = lit "GET" ->
    path_served (path req) = true ->
    f <> Inaccessible ->
    no_surrogate (py_str (last_failure (snapshot rt f))) = true ->
    exists (metrics : list pystr) (payload : pybytes),
      build_metrics rt now f = Ok metrics
      /\ dispatch rt now f req =
         Ok [ SendResponse 200;
              SendHeader (lit "Content-Type")
                         (lit "text/plain; version=0.0.4");
              SendHeader (lit "Content-Length")
                         (str_of_int (Z.of_nat (List.length payload)));
              EndHeaders;
              Write payload ]
      /\ (List.length (join newline metrics) <= List.length payload
          <= 4 * List.length (join newline metrics))%nat
      /\ (List.length payload = List.length (join newline metrics)
          <-> is_ascii (py_str (last_failure (snapshot rt f))) = true).
Proof.
  intros rt now f req Hc Hp Hf Hs.
  rewrite (dispatch_GET rt now f req Hc), (do_GET_served rt now f _ Hp Hf).
  rewrite (build_metrics_snapshot rt now f Hf).
  set (st := snapshot rt f) in *.
  pose proof (encode_metrics_is_ok now st) as He. rewrite Hs in He.
  destruct (encode_utf8 (join newline (metrics_of now st))) as [payload|e]
    eqn:E; [|discriminate].
  exists (metrics_of now st), payload.
  destruct (encode_utf8_length _ payload E) as [Hlen Hiff].
  rewrite is_ascii_join_metrics in Hiff.
  repeat split; try lia; apply Hiff.
Qed.

Lemma X11_content_length_counts_bytes_witness :
  exists (metrics : list pystr) (payload : pybytes),
    build_metrics Utc.host 1700000000
      (Present (Ok (PDict [ (lit "last_failure", PStr [233%N]) ]
                          [123; 39; 108; 97; 115; 116; 95; 102; 97; 105;
                           108; 117; 114; 101; 39; 58; 32; 39; 233; 39;
                           125]%N))) = Ok metrics
    /\ (List.length (join newline metrics) <= List.length payload)%nat.
Proof.
  destruct (X11_content_length_counts_bytes Utc.host 1700000000
              (Present (Ok (PDict [ (lit "last_failure", PStr [233%N]) ]
                          [123; 39; 108; 97; 115; 116; 95; 102; 97; 105;
                           108; 117; 114; 101; 39; 58; 32; 39; 233; 39;
                           125]%N)))
              (GET "/metrics") eq_refl eq_refl)
    as (metrics & payload & Hm & _ & Hlen & _);
    [discriminate | reflexivity |].
  exists metrics, payload. split; [exact Hm | lia].
Defined.
